(** * Plant-Monitoring: the temperature chart and its two services

  A shallow embedding of [src/components/TemperatureChart.tsx],
  [src/services/signalRService.ts] and [src/services/apiService.ts],
  followed by the properties of the data-windowing engine stated on them.

  JavaScript numbers that carry measurements are IEEE 754 binary64 values
  and are modelled by Rocq's primitive [float]; [Date.now()] readings are
  integral milliseconds and are modelled by [Z]. *)

From Stdlib Require Import ZArith List Ascii String Bool Lia Floats Sorted.
Import ListNotations.

Set Warnings "-inexact-float".

#[local] Open Scope Z_scope.

(** ** Host functions *)

Module Host.

(** The float of an integer that fits the mantissa, with the sign of zero
    given apart (JavaScript distinguishes [-0] from [+0]). *)
Definition of_Z (negzero : bool) (n : Z) : float :=
  match n with
  | Z0 => if negzero then neg_zero else zero
  | Zpos p => SF2Prim (S754_finite false p 0)
  | Zneg p => SF2Prim (S754_finite true p 0)
  end.

(** [Math.round]: the nearest integer, ties towards +infinity; NaN, the
    infinities, the zeros and integral values are returned as they are; a
    result of zero keeps the sign of the argument. *)
Definition Math_round (x : float) : float :=
  match Prim2SF x with
  | S754_finite s m e =>
      if 0 <=? e then x
      else
        let k := - e in
        let num := if s then Zneg m else Zpos m in
        of_Z s ((2 * num + 2 ^ k) / 2 ^ (k + 1))
  | _ => x
  end.

End Host.

(** ** [TemperatureChart.tsx] *)

Module TemperatureChart.

Record TemperatureDataPoint := mkPoint {
  timestamp : Z;
  temperature : float
}.

Record SpikeConfig := mkSpikeConfig {
  upperThreshold : float;
  lowerThreshold : float;
  upperColor : string;
  lowerColor : string;
  enabled : bool
}.

Definition SPIKE_CONFIG : SpikeConfig := {|
  upperThreshold := 5;
  lowerThreshold := -5;
  upperColor := "#e74c3c";
  lowerColor := "#3498db";
  enabled := true
|}.

(** [Object.entries(ZOOM_LEVELS)]: no key is an array index, so the entries
    come in insertion order; [parseFloat] of a key gives back the number
    the key was written as. *)
Definition ZOOM_LEVELS : list (float * string) :=
  [ (0.005, "1 Second");
    (0.02,  "30 Seconds");
    (0.05,  "1 Minute");
    (0.1,   "5 Minutes");
    (0.2,   "15 Minutes");
    (0.3,   "30 Minutes");
    (0.5,   "1 Hour");
    (0.7,   "4 Hours");
    (0.85,  "12 Hours");
    (0.95,  "1 Day") ]%float%string.

Record SpikeSet := mkSpikeSet {
  upperSpikes : list TemperatureDataPoint;
  lowerSpikes : list TemperatureDataPoint
}.

(** The body of the [forEach] callback of [detectSpikes], threading the two
    arrays it pushes to. *)
Definition detectSpikes_step (cfg : SpikeConfig) (acc : SpikeSet)
    (point : TemperatureDataPoint) : SpikeSet :=
  if (upperThreshold cfg <? temperature point)%float then
    {| upperSpikes := upperSpikes acc ++ [point];
       lowerSpikes := lowerSpikes acc |}
  else if (temperature point <? lowerThreshold cfg)%float then
    {| upperSpikes := upperSpikes acc;
       lowerSpikes := lowerSpikes acc ++ [point] |}
  else acc.

(** [detectSpikes], with the module-level configuration it reads passed
    explicitly. *)
Definition detectSpikes (cfg : SpikeConfig)
    (data : list TemperatureDataPoint) : SpikeSet :=
  if negb (enabled cfg) then {| upperSpikes := []; lowerSpikes := [] |}
  else fold_left (detectSpikes_step cfg) data
         {| upperSpikes := []; lowerSpikes := [] |}.

(** The loop of [getZoomLevel] over the entries of the table: the first
    entry whose threshold the range does not exceed decides. *)
Fixpoint getZoomLevel_from (entries : list (float * string))
    (zoomRange : float) : string :=
  match entries with
  | [] => "1 Week"
  | (threshold, level) :: rest =>
      if (zoomRange <=? threshold)%float then level
      else getZoomLevel_from rest zoomRange
  end.

Definition getZoomLevel (zoomRange : float) : string :=
  getZoomLevel_from ZOOM_LEVELS zoomRange.

(** *** The component's mutable references *)

(** [zoomStateRef.current]: the [start] and [end] of the data zoom, in
    percent of the loaded series. *)
Record ZoomState := mkZoom {
  zoomStart : float;
  zoomEnd : float
}.

(** What one [setOption] call of [updateChartData] hands to the chart: the
    data of the three series and the range of the two [dataZoom]
    components. *)
Record ChartOption := mkOption {
  temperatureData : list (Z * float);
  upperSpikesData : list (Z * float);
  lowerSpikesData : list (Z * float);
  insideZoom : ZoomState;
  sliderZoom : ZoomState
}.

(** The chart instance, as the [setOption] calls it has received, oldest
    first. *)
Definition ECharts := list ChartOption.

Record ChartState := mkChart {
  dataRef : list TemperatureDataPoint;
  echartsInstanceRef : option ECharts;
  zoomStateRef : ZoomState;
  (** whether the one-second interval of the second effect is running *)
  intervalActive : bool
}.

Definition initialChart : ChartState := {|
  dataRef := [];
  echartsInstanceRef := None;
  zoomStateRef := {| zoomStart := 99.99; zoomEnd := 100 |};
  intervalActive := false
|}.

Definition toPair (item : TemperatureDataPoint) : Z * float :=
  (timestamp item, temperature item).

(** *** [generateDummyData] *)

Definition threeDaysMs : Z := 3 * 24 * 60 * 60 * 1000.

(** One point of the generated history. [raw time] is the value of
    [temperature] when the loop body reaches [data.push]: it depends on the
    local hour and weekday of [time], on [Math.sin] and on the
    pseudo-random draws, all of them the host's. *)
Definition dummyPoint (raw : Z -> float) (time : Z) : TemperatureDataPoint :=
  {| timestamp := time;
     temperature := (Host.Math_round (raw time * 10) / 10)%float |}.

(** The [for] loop: [time] runs from its start while [time <= now], in
    steps of one second. [fuel] bounds the number of iterations. *)
Fixpoint generateDummyData_loop (fuel : nat) (raw : Z -> float)
    (time now : Z) (data : list TemperatureDataPoint)
    : list TemperatureDataPoint :=
  match fuel with
  | O => data
  | S fuel' =>
      if time <=? now
      then generateDummyData_loop fuel' raw (time + 1000) now
             (data ++ [dummyPoint raw time])
      else data
  end.

(** [generateDummyData], with the reading of [Date.now()] as [now]. The
    loop runs [threeDaysMs / 1000 + 1] times, and one more test ends it. *)
Definition generateDummyData (raw : Z -> float) (now : Z)
    : list TemperatureDataPoint :=
  let twoDaysAgo := now - threeDaysMs in
  generateDummyData_loop (Z.to_nat (threeDaysMs / 1000 + 2)) raw
    twoDaysAgo now [].

(** *** [updateChartData] *)

(** [now] is the reading of [Date.now()] and [rnd] the draw of
    [Math.random()]. *)
Definition updateChartData (now : Z) (rnd : float) (st : ChartState)
    : ChartState :=
  let newPoint :=
    {| timestamp := now;
       temperature :=
         (Host.Math_round ((rnd - 0.5) * 10 * 10) / 10)%float |} in
  let data := dataRef st ++ [newPoint] in
  match echartsInstanceRef st with
  | Some instance =>
      let spikes := detectSpikes SPIKE_CONFIG data in
      let option := {|
        temperatureData := map toPair data;
        upperSpikesData := map toPair (upperSpikes spikes);
        lowerSpikesData := map toPair (lowerSpikes spikes);
        insideZoom := zoomStateRef st;
        sliderZoom := zoomStateRef st
      |} in
      {| dataRef := data;
         echartsInstanceRef := Some (instance ++ [option]);
         zoomStateRef := zoomStateRef st;
         intervalActive := intervalActive st |}
  | None =>
      {| dataRef := data;
         echartsInstanceRef := None;
         zoomStateRef := zoomStateRef st;
         intervalActive := intervalActive st |}
  end.

(** *** The events of the component *)

Inductive ChartEvent :=
| (** first effect at mount: [dataRef.current = generateDummyData()] *)
  LoadHistory (raw : Z -> float) (now : Z)
| (** second effect at mount: [setInterval(updateChartData, 1000)] *)
  StartInterval
| (** the interval fires *)
  Tick (now : Z) (rnd : float)
| (** [onChartReady] *)
  ChartReady
| (** cleanup at unmount: [clearInterval(interval)] *)
  Unmount.

Definition chartStep (st : ChartState) (ev : ChartEvent) : ChartState :=
  match ev with
  | LoadHistory raw now =>
      {| dataRef := generateDummyData raw now;
         echartsInstanceRef := echartsInstanceRef st;
         zoomStateRef := zoomStateRef st;
         intervalActive := intervalActive st |}
  | StartInterval =>
      {| dataRef := dataRef st;
         echartsInstanceRef := echartsInstanceRef st;
         zoomStateRef := zoomStateRef st;
         intervalActive := true |}
  | Tick now rnd =>
      if intervalActive st then updateChartData now rnd st else st
  | ChartReady =>
      {| dataRef := dataRef st;
         echartsInstanceRef :=
           Some (match echartsInstanceRef st with
                 | Some instance => instance
                 | None => []
                 end);
         zoomStateRef := zoomStateRef st;
         intervalActive := intervalActive st |}
  | Unmount =>
      {| dataRef := dataRef st;
         echartsInstanceRef := echartsInstanceRef st;
         zoomStateRef := zoomStateRef st;
         intervalActive := false |}
  end.

Definition chartRun (st : ChartState) (evs : list ChartEvent) : ChartState :=
  fold_left chartStep evs st.

End TemperatureChart.

(** ** [signalRService.ts] *)

Module SignalRService.

Record PlantTemperatureData := mkData {
  timestamp : Z;
  temperature : float
}.

(** [signalR.HubConnectionState] *)
Inductive HubConnectionState :=
| Disconnected | Connecting | Connected | Disconnecting | Reconnecting.

Definition HubConnectionState_eqb (a b : HubConnectionState) : bool :=
  match a, b with
  | Disconnected, Disconnected | Connecting, Connecting
  | Connected, Connected | Disconnecting, Disconnecting
  | Reconnecting, Reconnecting => true
  | _, _ => false
  end.

(** The hub connection, as far as the service uses it: its state and the
    number of handlers registered for ['ReceivePlantTemperature'] with
    [connection.on]. Every handler the service registers is the same
    closure over [this.listeners], so their number is all that matters. *)
Record HubConnection := mkConnection {
  state : HubConnectionState;
  handlers : nat
}.

(** A listener is a callback, known by its identity. *)
Definition Listener := nat.

(** [listeners] is a JavaScript [Set]: no duplicates, iterated in insertion
    order. *)
Record Service := mkService {
  connection : HubConnection;
  listeners : list Listener
}.

(** The state the constructor leaves: a built, not yet started connection
    and no listener. *)
Definition initialService : Service := {|
  connection := {| state := Disconnected; handlers := 0 |};
  listeners := []
|}.

(** How a call of [startConnection] can leave its caller. *)
Inductive StartResult :=
| Returned                (* the promise resolves *)
| Thrown                  (* the promise rejects with the caught error *)
| Awaiting.               (* suspended at [await this.connection.start()] *)

(** [connection.start()] of the SignalR client, up to its first suspension:
    it rejects at once unless the connection is [Disconnected], and
    otherwise moves it to [Connecting]. *)
Definition HubConnection_start (c : HubConnection)
    : HubConnection * bool :=
  match state c with
  | Disconnected => ({| state := Connecting; handlers := handlers c |}, true)
  | _ => (c, false)
  end.

(** [startConnection] up to its [await]: nothing happens when the
    connection is [Connected]. *)
Definition startConnection (s : Service) : Service * StartResult :=
  if HubConnectionState_eqb (state (connection s)) Connected
  then (s, Returned)
  else
    let (c, started) := HubConnection_start (connection s) in
    ({| connection := c; listeners := listeners s |},
     if started then Awaiting else Thrown).

(** [startConnection] after its [await]: when the handshake succeeded the
    connection is [Connected] and the hub handler is registered; when it
    failed the connection is [Disconnected] again and the error is
    rethrown. *)
Definition startConnection_resume (ok : bool) (s : Service)
    : Service * StartResult :=
  if ok then
    ({| connection :=
          {| state := Connected;
             handlers := S (handlers (connection s)) |};
        listeners := listeners s |}, Returned)
  else
    ({| connection :=
          {| state := Disconnected;
             handlers := handlers (connection s) |};
        listeners := listeners s |}, Thrown).

(** [Set.prototype.add] *)
Definition Set_add (x : Listener) (l : list Listener) : list Listener :=
  if existsb (Nat.eqb x) l then l else l ++ [x].

(** [Set.prototype.delete] *)
Definition Set_delete (x : Listener) (l : list Listener) : list Listener :=
  filter (fun y => negb (Nat.eqb x y)) l.

Definition onPlantTemperatureReceived (callback : Listener) (s : Service)
    : Service :=
  {| connection := connection s;
     listeners := Set_add callback (listeners s) |}.

Definition removeListener (callback : Listener) (s : Service) : Service :=
  {| connection := connection s;
     listeners := Set_delete callback (listeners s) |}.

(** *** Listeners at work

    A listener is the client's code. When it is called with a point it may
    call back into the service, registering or removing listeners (itself
    included), and then it returns or throws. What it does may depend on
    what happened before: [W] is the state of the client's code, and the
    callbacks of the client are given by how they react in each state. *)
Inductive ListenerCall :=
| Register (callback : Listener)     (* [onPlantTemperatureReceived] *)
| Unregister (callback : Listener).  (* [removeListener] *)

Record Reaction := mkReaction {
  reentrant : list ListenerCall;
  throws : bool
}.

Definition Callbacks (W : Type) : Type :=
  W -> Listener -> PlantTemperatureData -> W * Reaction.

(** A call back into the service while [forEach] walks the set. The set is
    split at the place the walk has reached: the entries already visited and
    the entries still to visit. [Set.prototype.add] appends a value that is
    in neither part, so it will still be visited; [Set.prototype.delete]
    takes the value out of either part. *)
Definition reenter (parts : list Listener * list Listener)
    (call : ListenerCall) : list Listener * list Listener :=
  match call with
  | Register x =>
      if existsb (Nat.eqb x) (fst parts ++ snd parts) then parts
      else (fst parts, snd parts ++ [x])
  | Unregister x => (Set_delete x (fst parts), Set_delete x (snd parts))
  end.

(** [this.listeners.forEach(listener => listener(data))]: the entries are
    visited in order, each is counted as visited before its listener is
    called, and the walk ends when no entry is left or when a listener
    throws, which no [try] around it catches. A listener can keep the walk
    going for ever by registering again and again; [fuel] bounds the number
    of entries visited. The result is the state of the client's code, the
    set, and the calls made, oldest first. *)
Fixpoint forEach {W : Type} (fuel : nat) (react : Callbacks W) (w : W)
    (visited rest : list Listener) (data : PlantTemperatureData)
    (made : list (Listener * PlantTemperatureData))
    : option (W * list Listener * list (Listener * PlantTemperatureData)) :=
  match fuel with
  | O => None
  | S fuel' =>
      match rest with
      | [] => Some (w, visited, made)
      | listener :: rest' =>
          let (w', reaction) := react w listener data in
          let parts :=
            fold_left reenter (reentrant reaction)
                      (visited ++ [listener], rest') in
          let made' := made ++ [(listener, data)] in
          if throws reaction then Some (w', fst parts ++ snd parts, made')
          else forEach fuel' react w' (fst parts) (snd parts) data made'
      end
  end.

(** The client of the hub invokes the handlers registered for a message one
    after the other, each in a [try] of its own: an error thrown out of one
    handler is logged and the next handler still runs. Each handler here is
    the closure of [startConnection]: it logs and walks the listeners. *)
Fixpoint runHandlers {W : Type} (registered : nat) (fuel : nat)
    (react : Callbacks W) (w : W) (set : list Listener)
    (data : PlantTemperatureData)
    (made : list (Listener * PlantTemperatureData))
    : option (W * list Listener * list (Listener * PlantTemperatureData)) :=
  match registered with
  | O => Some (w, set, made)
  | S registered' =>
      match forEach fuel react w [] set data made with
      | None => None
      | Some (w', set', made') =>
          runHandlers registered' fuel react w' set' data made'
      end
  end.

(** What the arrival of one ['ReceivePlantTemperature'] message causes.
    [handlerRuns] counts the handlers that ran (the log lines), [calls] lists
    the listener calls in order. *)
Record Dispatch := mkDispatch {
  handlerRuns : nat;
  calls : list (Listener * PlantTemperatureData)
}.

(** The arrival of a message: the state of the client's code and the
    service after it, and what was dispatched; nothing when the fuel does
    not suffice for a walk. *)
Definition receive {W : Type} (react : Callbacks W) (w : W) (s : Service)
    (data : PlantTemperatureData) (fuel : nat)
    : option (W * Service * Dispatch) :=
  match runHandlers (handlers (connection s)) fuel react w (listeners s)
                    data [] with
  | None => None
  | Some (w', set, made) =>
      Some (w',
            {| connection := connection s; listeners := set |},
            {| handlerRuns := handlers (connection s); calls := made |})
  end.

(** Listeners that return and leave the service alone. *)
Definition quiet : Callbacks unit :=
  fun w _ _ => (w, {| reentrant := []; throws := false |}).

(** The operations the class offers, and what the connection itself may do
    while the service lives. The connection is built
    [withAutomaticReconnect()]: when the transport is lost it goes to
    [Reconnecting] and, when an attempt succeeds, back to [Connected]; it is
    closed for good when the server closes it or the attempts are used up.
    The handlers registered with [connection.on] stay through all of it. *)
Inductive ServiceEvent :=
| CallStart                               (* [startConnection()] *)
| StartSettled (ok : bool)                (* the awaited start settles *)
| CallOn (callback : Listener)            (* [onPlantTemperatureReceived] *)
| CallRemove (callback : Listener)        (* [removeListener] *)
| ConnectionLost                          (* the transport is lost *)
| Reconnected                             (* a reconnect attempt succeeds *)
| ConnectionClosed.                       (* the connection is closed *)

Definition withState (st : HubConnectionState) (s : Service) : Service :=
  {| connection := {| state := st; handlers := handlers (connection s) |};
     listeners := listeners s |}.

Definition serviceStep (s : Service) (ev : ServiceEvent) : Service :=
  match ev with
  | CallStart => fst (startConnection s)
  | StartSettled ok =>
      match state (connection s) with
      | Connecting => fst (startConnection_resume ok s)
      | _ => s
      end
  | CallOn callback => onPlantTemperatureReceived callback s
  | CallRemove callback => removeListener callback s
  | ConnectionLost =>
      match state (connection s) with
      | Connected => withState Reconnecting s
      | _ => s
      end
  | Reconnected =>
      match state (connection s) with
      | Reconnecting => withState Connected s
      | _ => s
      end
  | ConnectionClosed =>
      match state (connection s) with
      | Connected | Reconnecting => withState Disconnected s
      | _ => s
      end
  end.

Definition serviceRun (s : Service) (evs : list ServiceEvent) : Service :=
  fold_left serviceStep evs s.

(** The calls a client of the class can make. *)
Definition isCall (ev : ServiceEvent) : bool :=
  match ev with
  | CallStart | CallOn _ | CallRemove _ => true
  | _ => false
  end.

(** Events under which the connection is never closed: it may be lost and
    reconnect by itself. *)
Definition keepsConnection (ev : ServiceEvent) : bool :=
  match ev with
  | ConnectionClosed => false
  | _ => true
  end.

End SignalRService.

(** ** The API service *)

Module ApiService.

Import SignalRService.

Record HistoricalTemperatureResponse := mkResponseBody {
  data : list PlantTemperatureData
}.

Record ApiService := mkApi {
  baseUrl : string
}.

(** [import.meta.env.VITE_BACKEND_URL || 'http://localhost:5142']: an
    unset or empty variable gives the default. *)
Definition constructor (VITE_BACKEND_URL : option string) : ApiService :=
  {| baseUrl :=
       match VITE_BACKEND_URL with
       | None | Some EmptyString => "http://localhost:5142"
       | Some url => url
       end |}.

(** The arguments of a [fetch] call: the resource and, in its options, the
    abort signal if one is given. *)
Record FetchRequest := mkRequest {
  url : string;
  signal : option nat
}.

(** What the network answers: [fetch] rejects, or resolves with a response
    whose body parses as JSON or does not. *)
Record Response := mkResponse {
  ok : bool;
  status : Z;
  json : option HistoricalTemperatureResponse
}.

Inductive FetchOutcome :=
| FetchRejected (reason : string)
| FetchResolved (response : Response).

Inductive Error :=
| HttpError (status : Z)        (* [HTTP error! status: ...] *)
| NetworkError (reason : string)
| JsonError.

(** The request [getHistoricalTemperatureData] issues: [fetch] is called
    with the URL alone. *)
Definition historicalRequest (api : ApiService) : FetchRequest :=
  {| url := (baseUrl api ++ "/api/temperature/historical")%string;
     signal := None |}.

(** [getHistoricalTemperatureData], given what the network answers to its
    request. The [catch] block logs and rethrows what it caught. *)
Definition getHistoricalTemperatureData (api : ApiService)
    (network : FetchRequest -> FetchOutcome)
    : Error + list PlantTemperatureData :=
  match network (historicalRequest api) with
  | FetchRejected reason => inl (NetworkError reason)
  | FetchResolved response =>
      if negb (ok response) then inl (HttpError (status response))
      else match json response with
           | None => inl JsonError
           | Some body => inr (data body)
           end
  end.

End ApiService.

(** ** Notions the properties are stated with *)

Module Notions.

Import TemperatureChart.

(** The timestamps of a buffer, in buffer order. *)
Definition timestamps (buffer : list TemperatureDataPoint) : list Z :=
  map TemperatureChart.timestamp buffer.

(** Strictly ascending: every element is below all that follow it. *)
Definition StrictlyAscending (l : list Z) : Prop := StronglySorted Z.lt l.

(** [l1] is [l2] with some elements left out, the others in their order. *)
Inductive Subsequence {A : Type} : list A -> list A -> Prop :=
| Subsequence_nil : Subsequence [] []
| Subsequence_skip x l1 l2 : Subsequence l1 l2 -> Subsequence l1 (x :: l2)
| Subsequence_keep x l1 l2 :
    Subsequence l1 l2 -> Subsequence (x :: l1) (x :: l2).

(** The tests that send a point to the upper and to the lower output of
    [detectSpikes]: the second is tried only when the first fails. *)
Definition isUpper (cfg : SpikeConfig) (p : TemperatureDataPoint) : bool :=
  (upperThreshold cfg <? temperature p)%float.

Definition isLower (cfg : SpikeConfig) (p : TemperatureDataPoint) : bool :=
  negb (isUpper cfg p) && (temperature p <? lowerThreshold cfg)%float.

(** The labels from finest to coarsest: those of the table in its order,
    then the catch-all. *)
Definition GRANULARITY_SCALE : list string :=
  map snd ZOOM_LEVELS ++ ["1 Week"%string].

Fixpoint position (label : string) (scale : list string) : nat :=
  match scale with
  | [] => O
  | l :: rest => if String.eqb l label then O else S (position label rest)
  end.

(** The coarseness of a label: its place on the scale. A label is finer
    than or equal to another when its coarseness is at most the other's. *)
Definition coarseness (label : string) : nat :=
  position label GRANULARITY_SCALE.

(** How many entries of the table the loop of [getZoomLevel] passes over
    before it returns. *)
Fixpoint entriesPassed (entries : list (float * string)) (zoomRange : float)
    : nat :=
  match entries with
  | [] => O
  | (threshold, _) :: rest =>
      if (zoomRange <=? threshold)%float then O
      else S (entriesPassed rest zoomRange)
  end.

(** The readings of [Date.now()] a sequence of events makes, in order. *)
Definition clockReading (ev : ChartEvent) : list Z :=
  match ev with
  | LoadHistory _ now => [now]
  | Tick now _ => [now]
  | _ => []
  end.

Definition clockReadings (evs : list ChartEvent) : list Z :=
  flat_map clockReading evs.

(** What holds of every state the service reaches while its connection is
    never closed: the listeners are distinct, and the hub handler is
    registered once from the moment the connection is [Connected], also
    while it reconnects, and not at all before. *)
Definition wellFormed (s : SignalRService.Service) : Prop :=
  NoDup (SignalRService.listeners s) /\
  match SignalRService.state (SignalRService.connection s) with
  | SignalRService.Connected | SignalRService.Reconnecting =>
      SignalRService.handlers (SignalRService.connection s) = 1%nat
  | _ => SignalRService.handlers (SignalRService.connection s) = 0%nat
  end.

(** Callbacks none of which ever throws. *)
Definition neverThrows {W : Type} (react : SignalRService.Callbacks W)
    : Prop :=
  forall w l d, SignalRService.throws (snd (react w l d)) = false.

(** Callbacks none of which ever calls back into the service. *)
Definition neverReenters {W : Type} (react : SignalRService.Callbacks W)
    : Prop :=
  forall w l d, SignalRService.reentrant (snd (react w l d)) = [].

(** Callbacks none of which ever registers the given callback. *)
Definition neverRegisters {W : Type} (react : SignalRService.Callbacks W)
    (callback : SignalRService.Listener) : Prop :=
  forall w l d,
    ~ In (SignalRService.Register callback)
         (SignalRService.reentrant (snd (react w l d))).

(** The listeners a walk over [set] calls when no callback calls back into
    the service: those up to and including the first that throws, and the
    state of the client's code after them. *)
Fixpoint delivered {W : Type} (react : SignalRService.Callbacks W) (w : W)
    (set : list SignalRService.Listener)
    (data : SignalRService.PlantTemperatureData)
    : W * list SignalRService.Listener :=
  match set with
  | [] => (w, [])
  | l :: set' =>
      if SignalRService.throws (snd (react w l data))
      then (fst (react w l data), [l])
      else (fst (delivered react (fst (react w l data)) set' data),
            l :: snd (delivered react (fst (react w l data)) set' data))
  end.

(** Whether a URL carries a query string. *)
Fixpoint hasQuery (u : string) : bool :=
  match u with
  | EmptyString => false
  | String c rest => Ascii.eqb c "?"%char || hasQuery rest
  end.

End Notions.

(** ** [TemperatureChart.tsx]: the zoom handler and the theme *)

Module ChartView.

Import TemperatureChart.

(** The payload of a [dataZoom] event, as the handler reads it: [batch],
    [start] and [end] may each be missing. The items of a batch carry both
    numbers. *)
Record DataZoomParams := mkParams {
  paramsBatch : option (list ZoomState);
  paramsStart : option float;
  paramsEnd : option float
}.

(** The component's references together with its two pieces of React
    state. *)
Record View := mkView {
  chart : ChartState;
  currentZoomLevel : string;
  isZoomedIn : bool
}.


(** The [start] and [end] the handler settles on: those of the first item
    of a non-empty batch, else those of the event itself when both are
    defined, else none (the handler returns). *)
Definition zoomRangeOf (params : DataZoomParams) : option ZoomState :=
  match paramsBatch params with
  | Some (batchItem :: _) => Some batchItem
  | _ =>
      match paramsStart params, paramsEnd params with
      | Some s, Some e => Some {| zoomStart := s; zoomEnd := e |}
      | _, _ => None
      end
  end.

(** [visibleRangeHours] of the handler, computed when the buffer is not
    empty. Timestamps are time values, below 2^53 in magnitude, so they are
    binary64 numbers exactly. *)
Definition visibleRangeHours (data : list TemperatureDataPoint)
    (zoom : ZoomState) : option float :=
  match data with
  | [] => None
  | first :: _ =>
      let dataStart := Host.of_Z false (timestamp first) in
      let dataEnd := Host.of_Z false (timestamp (last data first)) in
      let totalRange := (dataEnd - dataStart)%float in
      let visibleStart :=
        (dataStart + (zoomStart zoom / 100) * totalRange)%float in
      let visibleEnd :=
        (dataStart + (zoomEnd zoom / 100) * totalRange)%float in
      Some ((visibleEnd - visibleStart) / (1000 * 60 * 60))%float
  end.

(** [handleChartEvents.dataZoom] *)
Definition dataZoom (params : DataZoomParams) (v : View) : View :=
  match zoomRangeOf params with
  | None => v
  | Some zoom =>
      let zoomRange := (zoomEnd zoom - zoomStart zoom)%float in
      {| chart :=
           {| dataRef := dataRef (chart v);
              echartsInstanceRef := echartsInstanceRef (chart v);
              zoomStateRef := zoom;
              intervalActive := intervalActive (chart v) |};
         currentZoomLevel := getZoomLevel zoomRange;
         isZoomedIn :=
           match visibleRangeHours (dataRef (chart v)) zoom with
           | Some hours => (hours <=? 3)%float
           | None => isZoomedIn v
           end |}
  end.

Inductive ViewEvent :=
| OnChart (ev : ChartEvent)            (* an event of the component *)
| OnDataZoom (params : DataZoomParams). (* the chart reports a zoom *)

Definition viewStep (v : View) (ev : ViewEvent) : View :=
  match ev with
  | OnChart ev =>
      {| chart := chartStep (chart v) ev;
         currentZoomLevel := currentZoomLevel v;
         isZoomedIn := isZoomedIn v |}
  | OnDataZoom params => dataZoom params v
  end.

Definition viewRun (v : View) (evs : list ViewEvent) : View :=
  fold_left viewStep evs v.

(** The [setOption] calls the chart has received so far; none while there
    is no chart instance. *)
Definition optionsReceived (st : ChartState) : list ChartOption :=
  match echartsInstanceRef st with
  | Some instance => instance
  | None => []
  end.

(** The interval fires at each of the given clock readings and random
    draws. *)
Definition ticks (readings : list (Z * float)) : list ChartEvent :=
  map (fun t => Tick (fst t) (snd t)) readings.

(** Events that neither start the interval nor load a history. *)
Definition keepsStopped (ev : ChartEvent) : bool :=
  match ev with
  | StartInterval | LoadHistory _ _ => false
  | _ => true
  end.

Record ThemeColors := mkTheme {
  textColor : string;
  axisColor : string;
  gridColor : string;
  tooltipBg : string
}.

Definition getThemeColors (isDarkMode : bool) : ThemeColors := {|
  textColor := if isDarkMode then "#ffffff" else "#333333";
  axisColor := if isDarkMode then "#666666" else "#cccccc";
  gridColor :=
    if isDarkMode then "rgba(255, 255, 255, 0.1)" else "rgba(0, 0, 0, 0.1)";
  tooltipBg :=
    if isDarkMode then "rgba(0, 0, 0, 0.9)" else "rgba(255, 255, 255, 0.95)"
|}.

End ChartView.

(** ** [App.tsx] *)

Module App.

(** [useState(true)] *)
Definition initialDarkMode : bool := true.

(** The click handler of the theme button. *)
Definition onClick (isDarkMode : bool) : bool := negb isDarkMode.

(** What the component renders from its state: the class of the root
    element and the [isDarkMode] property it gives to the chart. *)
Definition className (isDarkMode : bool) : string :=
  ("App " ++ (if isDarkMode then "dark" else "light"))%string.

Definition chartIsDarkMode (isDarkMode : bool) : bool := isDarkMode.

(** The state after a number of clicks. *)
Definition afterClicks (n : nat) : bool := Nat.iter n onClick initialDarkMode.

End App.

(** * Properties *)

(** ** Order of binary64 numbers

  The comparisons of [float] are specified through [spec_float]; on it
  [SFcompare] is a lexicographic comparison of sign, exponent and
  mantissa, and NaN compares with nothing. *)

Module FloatOrder.

Ltac split_compares :=
  repeat match goal with
  | H : context [Z.compare ?x ?y] |- _ => destruct (Z.compare_spec x y)
  | |- context [Z.compare ?x ?y] => destruct (Z.compare_spec x y)
  | H : context [Pos.compare ?x ?y] |- _ => destruct (Pos.compare_spec x y)
  | |- context [Pos.compare ?x ?y] => destruct (Pos.compare_spec x y)
  end.

Ltac order_cases :=
  simpl; intros;
  change (Pos.compare_cont Eq) with Pos.compare in *;
  try congruence;
  split_compares; simpl in *; subst; try congruence; try lia.

Lemma SFleb_trans (a b c : spec_float) :
  SFleb a b = true -> SFleb b c = true -> SFleb a c = true.
Proof.
  unfold SFleb.
  destruct a as [[]|[]| |[] ma ea], b as [[]|[]| |[] mb eb],
           c as [[]|[]| |[] mc ec]; order_cases.
Qed.

Lemma SFltb_trans (a b c : spec_float) :
  SFltb a b = true -> SFltb b c = true -> SFltb a c = true.
Proof.
  unfold SFltb.
  destruct a as [[]|[]| |[] ma ea], b as [[]|[]| |[] mb eb],
           c as [[]|[]| |[] mc ec]; order_cases.
Qed.

Lemma SFltb_asym (a b : spec_float) :
  SFltb a b = true -> SFltb b a = false.
Proof.
  unfold SFltb.
  destruct a as [[]|[]| |[] ma ea], b as [[]|[]| |[] mb eb]; order_cases.
Qed.

Lemma leb_trans (x y z : float) :
  (x <=? y)%float = true -> (y <=? z)%float = true ->
  (x <=? z)%float = true.
Proof. rewrite !leb_spec. apply SFleb_trans. Qed.

Lemma ltb_trans (x y z : float) :
  (x <? y)%float = true -> (y <? z)%float = true -> (x <? z)%float = true.
Proof. rewrite !ltb_spec. apply SFltb_trans. Qed.

Lemma ltb_asym (x y : float) :
  (x <? y)%float = true -> (y <? x)%float = false.
Proof. rewrite !ltb_spec. apply SFltb_asym. Qed.

End FloatOrder.

(** ** The spike detector *)

Module SpikeDetector.

Import TemperatureChart Notions.

(** The [forEach] loop computes two filters of the input. *)
Lemma fold_detectSpikes_step cfg data : forall acc,
  fold_left (detectSpikes_step cfg) data acc =
  {| upperSpikes := upperSpikes acc ++ filter (isUpper cfg) data;
     lowerSpikes := lowerSpikes acc ++ filter (isLower cfg) data |}.
Proof.
  induction data as [|p data IH]; intros [up lo]; simpl.
  - now rewrite !app_nil_r.
  - rewrite IH. unfold detectSpikes_step, isLower, isUpper. simpl.
    destruct (upperThreshold cfg <? temperature p)%float; simpl.
    + now rewrite <- app_assoc.
    + destruct (temperature p <? lowerThreshold cfg)%float; simpl;
        now rewrite <- ?app_assoc.
Qed.

Lemma detectSpikes_enabled cfg data :
  enabled cfg = true ->
  detectSpikes cfg data =
  {| upperSpikes := filter (isUpper cfg) data;
     lowerSpikes := filter (isLower cfg) data |}.
Proof.
  intros He. unfold detectSpikes. rewrite He. simpl.
  now rewrite fold_detectSpikes_step.
Qed.

(** Below [lowerThreshold] of the configuration is not above its
    [upperThreshold]. *)
Lemma below_lower_not_above_upper (t : float) :
  (t <? -5)%float = true -> (5 <? t)%float = false.
Proof.
  intros H. apply FloatOrder.ltb_asym.
  apply FloatOrder.ltb_trans with (1 := H). reflexivity.
Qed.

Lemma filter_Subsequence {A} (f : A -> bool) (l : list A) :
  Subsequence (filter f l) l.
Proof.
  induction l as [|x l IH]; simpl.
  - constructor.
  - destruct (f x); now constructor.
Qed.

(** C4. On every input series, a point is among the upper spikes exactly
    when it is in the input and its value is strictly above the upper
    threshold 5, and among the lower spikes exactly when it is in the input
    and its value is strictly below the lower threshold -5; no point is in
    both; with detection disabled both outputs are empty whatever the
    thresholds; and a point of value 12 appended to the buffer is among the
    upper spikes. *)
Theorem detectSpikes_classifies (data : list TemperatureDataPoint) :
  let spikes := detectSpikes SPIKE_CONFIG data in
  (forall p, In p (upperSpikes spikes) <->
             In p data /\ (5 <? temperature p)%float = true) /\
  (forall p, In p (lowerSpikes spikes) <->
             In p data /\ (temperature p <? -5)%float = true) /\
  (forall p, ~ (In p (upperSpikes spikes) /\ In p (lowerSpikes spikes))) /\
  (forall upper lower cu cl,
     detectSpikes (mkSpikeConfig upper lower cu cl false) data =
     {| upperSpikes := []; lowerSpikes := [] |}) /\
  (forall ts,
     In (mkPoint ts 12)
        (upperSpikes (detectSpikes SPIKE_CONFIG (data ++ [mkPoint ts 12])))).
Proof.
  cbv zeta. rewrite detectSpikes_enabled by reflexivity. simpl.
  split; [|split; [|split; [|split]]].
  - intros p. apply filter_In.
  - intros p. rewrite filter_In. unfold isLower, isUpper. simpl.
    split; intros [Hin Hp]; (split; [exact Hin|]).
    + apply andb_true_iff in Hp. apply Hp.
    + rewrite (below_lower_not_above_upper _ Hp). exact Hp.
  - intros p [Hu Hl]. apply filter_In in Hu as [_ Hu].
    apply filter_In in Hl as [_ Hl]. unfold isLower in Hl.
    rewrite Hu in Hl. discriminate.
  - reflexivity.
  - intros ts. rewrite detectSpikes_enabled by reflexivity. simpl.
    apply filter_In. split; [|reflexivity].
    apply in_or_app. right. now left.
Qed.

(** The scenario of the specification: a reading of 12 arrives at
    t = 10000 and is reported as an upper spike, not as a lower one. *)
Lemma detectSpikes_classifies_witness :
  let p := mkPoint 10000 12 in
  let spikes := detectSpikes SPIKE_CONFIG [mkPoint 9000 4.5; p] in
  In p (upperSpikes spikes) /\ ~ In p (lowerSpikes spikes).
Proof.
  cbv zeta.
  pose proof (detectSpikes_classifies [mkPoint 9000 4.5; mkPoint 10000 12])
    as (Hup & _ & Hboth & _).
  cbv zeta in Hup, Hboth.
  assert (Hin : In (mkPoint 10000 12)
              (upperSpikes (detectSpikes SPIKE_CONFIG
                              [mkPoint 9000 4.5; mkPoint 10000 12]))).
  { apply Hup. split; [right; left; reflexivity | reflexivity]. }
  split; [exact Hin|].
  intros Hlo. exact (Hboth _ (conj Hin Hlo)).
Defined.

(** C10. A point whose value is exactly the upper threshold 5 or exactly
    the lower threshold -5 is in neither output, at any timestamp and in
    any input; and each output is a subsequence of the input: it keeps the
    relative order the points have there. *)
Theorem detectSpikes_boundary_and_order (data : list TemperatureDataPoint) :
  let spikes := detectSpikes SPIKE_CONFIG data in
  (forall ts, ~ In (mkPoint ts 5) (upperSpikes spikes) /\
              ~ In (mkPoint ts 5) (lowerSpikes spikes) /\
              ~ In (mkPoint ts (-5)) (upperSpikes spikes) /\
              ~ In (mkPoint ts (-5)) (lowerSpikes spikes)) /\
  Subsequence (upperSpikes spikes) data /\
  Subsequence (lowerSpikes spikes) data.
Proof.
  cbv zeta. rewrite detectSpikes_enabled by reflexivity. simpl.
  split; [|split; apply filter_Subsequence].
  intros ts.
  repeat split; intros Hin; apply filter_In in Hin as [_ Hin];
    discriminate Hin.
Qed.


(** A series with both boundary values and one spike on each side. *)
Lemma detectSpikes_boundary_and_order_witness :
  let data := [mkPoint 1 5; mkPoint 2 (-7.5); mkPoint 3 (-5); mkPoint 4 6] in
  let spikes := detectSpikes SPIKE_CONFIG data in
  ~ In (mkPoint 1 5) (upperSpikes spikes) /\
  ~ In (mkPoint 3 (-5)) (lowerSpikes spikes) /\
  Subsequence (upperSpikes spikes) data.
Proof.
  cbv zeta.
  pose proof (detectSpikes_boundary_and_order
                [mkPoint 1 5; mkPoint 2 (-7.5); mkPoint 3 (-5); mkPoint 4 6])
    as (Hb & Hu & _).
  cbv zeta in Hb, Hu.
  split; [apply (Hb 1) | split; [apply (Hb 3) | exact Hu]].
Defined.

End SpikeDetector.

(** ** The zoom classifier *)

Module ZoomClassifier.

Import TemperatureChart Notions.

(** The ceilings of the table ascend strictly. *)
Lemma ZOOM_LEVELS_ascending :
  StronglySorted (fun a b => (fst a <? fst b)%float = true) ZOOM_LEVELS.
Proof.
  unfold ZOOM_LEVELS.
  repeat (constructor; [|repeat (constructor; [reflexivity|]); constructor]).
  constructor.
Qed.

(** The loop is a search for the first entry that fits. *)
Lemma getZoomLevel_from_find entries zoomRange :
  getZoomLevel_from entries zoomRange =
  match find (fun e => (zoomRange <=? fst e)%float) entries with
  | Some (_, level) => level
  | None => "1 Week"%string
  end.
Proof.
  induction entries as [|[threshold level] rest IH]; simpl.
  - reflexivity.
  - destruct (zoomRange <=? threshold)%float; [reflexivity | exact IH].
Qed.

(** C3. The table ascends by ceiling; for every span ratio the classifier
    returns the label of the first entry of the table whose ceiling is
    greater than or equal to the ratio, and the catch-all label "1 Week" when
    there is none; and on 1.0, 0.5, 0.1 and 0.02 it returns "1 Week",
    "1 Hour", "5 Minutes" and "30 Seconds". *)
Theorem getZoomLevel_first_ceiling :
  StronglySorted (fun a b => (fst a <? fst b)%float = true) ZOOM_LEVELS /\
  (forall spanRatio,
     getZoomLevel spanRatio =
     match find (fun e => (spanRatio <=? fst e)%float) ZOOM_LEVELS with
     | Some (_, label) => label
     | None => "1 Week"%string
     end) /\
  map getZoomLevel [1.0; 0.5; 0.1; 0.02]%float =
  ["1 Week"; "1 Hour"; "5 Minutes"; "30 Seconds"]%string.
Proof.
  split; [exact ZOOM_LEVELS_ascending|].
  split; [|reflexivity].
  intros spanRatio. apply getZoomLevel_from_find.
Qed.

(** The label returned is the one at the place the loop stops. *)
Lemma getZoomLevel_from_nth entries zoomRange :
  getZoomLevel_from entries zoomRange =
  nth (entriesPassed entries zoomRange) (map snd entries ++ ["1 Week"%string])
      "1 Week"%string.
Proof.
  induction entries as [|[threshold level] rest IH]; simpl.
  - reflexivity.
  - destruct (zoomRange <=? threshold)%float; [reflexivity | exact IH].
Qed.

Lemma entriesPassed_le_length entries zoomRange :
  (entriesPassed entries zoomRange <= List.length entries)%nat.
Proof.
  induction entries as [|[threshold level] rest IH]; simpl.
  - lia.
  - destruct (zoomRange <=? threshold)%float; lia.
Qed.

(** A narrower range never passes more entries than a wider one. *)
Lemma entriesPassed_monotone entries r1 r2 :
  (r1 <=? r2)%float = true ->
  (entriesPassed entries r1 <= entriesPassed entries r2)%nat.
Proof.
  intros Hle.
  induction entries as [|[threshold level] rest IH]; simpl.
  - lia.
  - destruct (r2 <=? threshold)%float eqn:H2.
    + now rewrite (FloatOrder.leb_trans _ _ _ Hle H2).
    + destruct (r1 <=? threshold)%float; lia.
Qed.

(** The labels of the scale are pairwise different: each sits at its own
    place. *)
Lemma coarseness_nth (i : nat) :
  (i <= List.length ZOOM_LEVELS)%nat ->
  coarseness (nth i GRANULARITY_SCALE "1 Week"%string) = i.
Proof.
  intros Hi. simpl in Hi.
  do 11 (destruct i as [|i]; [reflexivity|]).
  lia.
Qed.

Lemma coarseness_getZoomLevel zoomRange :
  coarseness (getZoomLevel zoomRange) = entriesPassed ZOOM_LEVELS zoomRange.
Proof.
  unfold getZoomLevel. rewrite getZoomLevel_from_nth.
  apply coarseness_nth, entriesPassed_le_length.
Qed.

(** C6. The classifier is monotonic: when r1 <= r2 the label chosen for r1
    is finer than or equal to the label chosen for r2; and a ratio that
    equals the ceiling of an entry of the table gets the label of that
    entry. *)
Theorem getZoomLevel_monotone :
  (forall r1 r2,
     (r1 <=? r2)%float = true ->
     (coarseness (getZoomLevel r1) <= coarseness (getZoomLevel r2))%nat) /\
  (forall ceiling label,
     In (ceiling, label) ZOOM_LEVELS -> getZoomLevel ceiling = label).
Proof.
  split.
  - intros r1 r2 Hle. rewrite !coarseness_getZoomLevel.
    now apply entriesPassed_monotone.
  - intros ceiling label Hin. unfold ZOOM_LEVELS in Hin. simpl in Hin.
    repeat (destruct Hin as [Hin|Hin];
            [injection Hin as <- <-; reflexivity|]).
    contradiction.
Qed.

(** Zooming from half the series to a tenth of it goes from "1 Hour" to
    "5 Minutes", and exactly half of the series is "1 Hour". *)
Lemma getZoomLevel_monotone_witness :
  (coarseness (getZoomLevel 0.1) <= coarseness (getZoomLevel 0.5))%nat /\
  getZoomLevel 0.5 = "1 Hour"%string.
Proof.
  destruct getZoomLevel_monotone as [Hmono Hceil].
  split.
  - apply (Hmono 0.1 0.5)%float. reflexivity.
  - apply (Hceil 0.5%float "1 Hour"%string).
    unfold ZOOM_LEVELS. simpl. do 6 right. left. reflexivity.
Defined.

End ZoomClassifier.

(** ** The point buffer *)

Module PointBuffer.

Import TemperatureChart Notions.

Lemma timestamps_snoc buffer p :
  timestamps (buffer ++ [p]) =
  timestamps buffer ++ [TemperatureChart.timestamp p].
Proof. unfold timestamps. now rewrite map_app. Qed.

Lemma ascending_snoc (l : list Z) (x : Z) :
  StrictlyAscending l -> Forall (fun t => t < x) l ->
  StrictlyAscending (l ++ [x]).
Proof.
  unfold StrictlyAscending.
  induction l as [|a l IH]; intros Hs Hlt; simpl.
  - repeat constructor.
  - inversion Hs as [|? ? Hs' Ha]; subst.
    inversion Hlt as [|? ? Hax Hlt']; subst.
    constructor.
    + now apply IH.
    + apply Forall_app. split; [exact Ha | now repeat constructor].
Qed.

Lemma ascending_NoDup (l : list Z) : StrictlyAscending l -> NoDup l.
Proof.
  unfold StrictlyAscending.
  induction 1 as [|a l Hs IH Ha]; constructor; [|exact IH].
  intros Hin. rewrite Forall_forall in Ha. specialize (Ha _ Hin). lia.
Qed.

(** *** The generated history *)

(** Whatever the fuel, the loop keeps the series ascending and below the
    clock reading it was started with. *)
Lemma generateDummyData_loop_ascending raw now fuel : forall time data,
  StrictlyAscending (timestamps data) ->
  Forall (fun t => t < time) (timestamps data) ->
  Forall (fun t => t <= now) (timestamps data) ->
  let result := generateDummyData_loop fuel raw time now data in
  StrictlyAscending (timestamps result) /\
  Forall (fun t => t <= now) (timestamps result).
Proof.
  induction fuel as [|fuel IH]; intros time data Hs Hlt Hle; simpl.
  - now split.
  - destruct (Z.leb_spec time now) as [Hcmp|Hcmp]; [|now split].
    apply IH; rewrite timestamps_snoc; simpl.
    + now apply ascending_snoc.
    + apply Forall_app. split.
      * eapply Forall_impl; [|exact Hlt]. simpl. intros; lia.
      * repeat constructor. lia.
    + apply Forall_app. split; [exact Hle | now repeat constructor].
Qed.

Lemma generateDummyData_ascending raw now :
  StrictlyAscending (timestamps (generateDummyData raw now)) /\
  Forall (fun t => t <= now) (timestamps (generateDummyData raw now)).
Proof.
  unfold generateDummyData.
  apply generateDummyData_loop_ascending; constructor.
Qed.

(** With [n] iterations left before [time] passes [now] and more fuel than
    that, the loop pushes exactly the [n] points one second apart. *)
Lemma generateDummyData_loop_complete raw now (n : nat) :
  forall fuel time data,
  time + 1000 * Z.of_nat n = now + 1000 ->
  (n < fuel)%nat ->
  generateDummyData_loop fuel raw time now data =
  data ++ map (fun k => dummyPoint raw (time + 1000 * Z.of_nat k)) (seq 0 n).
Proof.
  induction n as [|n IH]; intros fuel time data Htime Hfuel;
    (destruct fuel as [|fuel]; [lia|]); cbn [generateDummyData_loop].
  - destruct (Z.leb_spec time now); [lia|]. simpl. now rewrite app_nil_r.
  - destruct (Z.leb_spec time now); [|lia].
    rewrite (IH fuel (time + 1000) _) by lia.
    rewrite <- app_assoc. f_equal. cbn [seq map app]. f_equal.
    + f_equal. lia.
    + rewrite <- seq_shift, map_map. apply map_ext.
      intros k. f_equal. lia.
Qed.

(** The fuel of [generateDummyData] is enough: the history is the 259201
    points from three days before [now] up to [now] itself. *)
Lemma generateDummyData_complete raw now :
  generateDummyData raw now =
  map (fun k => dummyPoint raw (now - threeDaysMs + 1000 * Z.of_nat k))
      (seq 0 (Z.to_nat 259201)).
Proof.
  unfold generateDummyData.
  rewrite (generateDummyData_loop_complete raw now (Z.to_nat 259201)).
  - reflexivity.
  - rewrite Z2Nat.id by lia. unfold threeDaysMs. lia.
  - apply Z2Nat.inj_lt; [lia | |]; unfold threeDaysMs.
    + change (3 * 24 * 60 * 60 * 1000 / 1000 + 2) with 259202. lia.
    + change (3 * 24 * 60 * 60 * 1000 / 1000 + 2) with 259202. lia.
Qed.

(** *** Live updates *)

Lemma dataRef_updateChartData now rnd st :
  dataRef (updateChartData now rnd st) =
  dataRef st ++
  [ {| TemperatureChart.timestamp := now;
       TemperatureChart.temperature :=
         (Host.Math_round ((rnd - 0.5) * 10 * 10) / 10)%float |} ].
Proof. unfold updateChartData. now destruct (echartsInstanceRef st). Qed.

Lemma intervalActive_updateChartData now rnd st :
  intervalActive (updateChartData now rnd st) = intervalActive st.
Proof. unfold updateChartData. now destruct (echartsInstanceRef st). Qed.

(** [n] ticks of a running interval add [n] points. *)
Lemma ticks_length now rnd (n : nat) : forall st,
  intervalActive st = true ->
  List.length (dataRef (chartRun st (repeat (Tick now rnd) n))) =
  (List.length (dataRef st) + n)%nat.
Proof.
  unfold chartRun.
  induction n as [|n IH]; intros st Hact; simpl.
  - lia.
  - rewrite Hact, IH.
    + rewrite dataRef_updateChartData, length_app. simpl. lia.
    + now rewrite intervalActive_updateChartData.
Qed.

Lemma buffer_exceeds (bound : nat) :
  (bound <
   List.length
     (dataRef (chartRun initialChart
                 (StartInterval :: repeat (Tick 0 0) (S bound)))))%nat.
Proof.
  unfold chartRun. cbn [fold_left].
  pose proof (ticks_length 0 0%float (S bound)
                (chartStep initialChart StartInterval) eq_refl) as H.
  unfold chartRun in H. rewrite H. simpl. lia.
Qed.

(** The buffer stays ascending as long as every clock reading is above all
    timestamps already stored and the readings ascend. *)
Lemma chartRun_ascending evs : forall st,
  StrictlyAscending (timestamps (dataRef st)) ->
  StrictlyAscending (clockReadings evs) ->
  (forall t c, In t (timestamps (dataRef st)) -> In c (clockReadings evs) ->
               t < c) ->
  StrictlyAscending (timestamps (dataRef (chartRun st evs))).
Proof.
  unfold chartRun.
  induction evs as [|ev evs IH]; intros st Hs Hclock Hbelow; simpl.
  - exact Hs.
  - assert (Hrest : StrictlyAscending (clockReadings evs)).
    { unfold clockReadings in *. simpl in Hclock.
      destruct ev; simpl in Hclock; try exact Hclock;
        now inversion Hclock. }
    assert (Hlater : forall now c, clockReading ev = [now] ->
                       In c (clockReadings evs) -> now < c).
    { intros now c Hev Hc. unfold clockReadings in *. simpl in Hclock.
      rewrite Hev in Hclock. simpl in Hclock.
      inversion Hclock as [|? ? _ Hall]; subst.
      rewrite Forall_forall in Hall. now apply Hall. }
    assert (Hkeep : forall t c, In t (timestamps (dataRef st)) ->
                      In c (clockReadings evs) -> t < c).
    { intros t c Ht Hc. apply Hbelow; [exact Ht|].
      unfold clockReadings. simpl. apply in_or_app. now right. }
    apply IH; [|exact Hrest|]; destruct ev as [raw now| |now rnd| |]; simpl;
      try exact Hs; try exact Hkeep.
    + apply generateDummyData_ascending.
    + destruct (intervalActive st); [|exact Hs].
      rewrite dataRef_updateChartData, timestamps_snoc. simpl.
      apply ascending_snoc; [exact Hs|].
      apply Forall_forall. intros t Ht. apply Hbelow; [exact Ht|].
      unfold clockReadings. simpl. now left.
    + intros t c Ht Hc.
      destruct (generateDummyData_ascending raw now) as [_ Hle].
      rewrite Forall_forall in Hle. specialize (Hle _ Ht).
      specialize (Hlater now c eq_refl Hc). lia.
    + destruct (intervalActive st); [|exact Hkeep].
      rewrite dataRef_updateChartData, timestamps_snoc. simpl.
      intros t c Ht Hc. apply in_app_or in Ht as [Ht|[<-|[]]].
      * now apply Hkeep.
      * now apply (Hlater now c).
Qed.

(** C1, as stated, fails: nothing sorts or deduplicates. Three ticks whose
    clock readings are 2000, 2000 and 1000 (a wall clock set back) leave a
    buffer that is neither ascending nor free of duplicate timestamps. *)
Lemma buffer_ascending_counterexample :
  let buffer :=
    dataRef (chartRun initialChart
               [StartInterval; Tick 2000 0.5; Tick 2000 0.5; Tick 1000 0.5]) in
  timestamps buffer = [2000; 2000; 1000] /\
  ~ StrictlyAscending (timestamps buffer) /\
  ~ NoDup (timestamps buffer).
Proof.
  cbv zeta.
  assert (Hts : timestamps
                  (dataRef (chartRun initialChart
                     [StartInterval; Tick 2000 0.5; Tick 2000 0.5;
                      Tick 1000 0.5])) = [2000; 2000; 1000])
    by reflexivity.
  rewrite Hts. split; [reflexivity|]. split.
  - intros Hs. inversion Hs as [|? ? _ Hall]; subst.
    inversion Hall; subst. lia.
  - intros Hnd. inversion Hnd as [|? ? Hnotin _]; subst.
    apply Hnotin. now left.
Qed.

(** C1, amended. For every sequence of history loads and live updates (and
    the other events of the component) applied to the initial, empty buffer,
    if the clock readings taken along the sequence ascend strictly, the
    resulting buffer is strictly ascending by timestamp and holds no two
    points with the same timestamp. *)
Theorem buffer_ascending_under_ascending_clock (evs : list ChartEvent) :
  StrictlyAscending (clockReadings evs) ->
  let buffer := dataRef (chartRun initialChart evs) in
  StrictlyAscending (timestamps buffer) /\ NoDup (timestamps buffer).
Proof.
  intros Hclock. cbv zeta.
  assert (Hs : StrictlyAscending
                 (timestamps (dataRef (chartRun initialChart evs)))).
  { apply chartRun_ascending; [constructor | exact Hclock |].
    intros t c []. }
  split; [exact Hs | now apply ascending_NoDup].
Qed.

(** Mount at clock 0, then two ticks one second apart. *)
Lemma buffer_ascending_under_ascending_clock_witness :
  let evs := [LoadHistory (fun _ => 1.5%float) 0; StartInterval; ChartReady;
              Tick 1000 0.25; Tick 2000 0.75] in
  StrictlyAscending (clockReadings evs) /\
  StrictlyAscending (timestamps (dataRef (chartRun initialChart evs))) /\
  NoDup (timestamps (dataRef (chartRun initialChart evs))).
Proof.
  cbv zeta.
  assert (Hclock : StrictlyAscending
            (clockReadings
               [LoadHistory (fun _ => 1.5%float) 0; StartInterval; ChartReady;
                Tick 1000 0.25; Tick 2000 0.75])).
  { unfold clockReadings, StrictlyAscending. cbn [flat_map clockReading app].
    repeat (constructor; [|repeat (constructor; [lia|]); constructor]).
    constructor. }
  split; [exact Hclock|].
  exact (buffer_ascending_under_ascending_clock _ Hclock).
Defined.

(** C5, as stated, fails: there is no trim, and no bound holds for the
    length of the buffer over all runs from the initial state. *)
Lemma buffer_bounded_counterexample :
  ~ exists bound : nat, forall evs,
      (List.length (dataRef (chartRun initialChart evs)) <= bound)%nat.
Proof.
  intros [bound Hbound].
  pose proof (buffer_exceeds bound) as Hgt.
  specialize (Hbound (StartInterval :: repeat (Tick 0 0) (S bound))).
  lia.
Qed.

(** C5, amended. A live update removes nothing: the buffer after it is the
    buffer before it followed by one new point stamped with the clock
    reading, so every point that was in the buffer (inside the visible span
    or not) is still in it, and the length has grown by exactly one. *)
Theorem updateChartData_keeps_every_point now rnd (st : ChartState) :
  let st' := updateChartData now rnd st in
  (exists p, dataRef st' = dataRef st ++ [p] /\
             TemperatureChart.timestamp p = now) /\
  (forall p, In p (dataRef st) -> In p (dataRef st')) /\
  List.length (dataRef st') = S (List.length (dataRef st)).
Proof.
  cbv zeta. rewrite dataRef_updateChartData.
  split; [|split].
  - eexists. split; reflexivity.
  - intros p Hin. apply in_or_app. now left.
  - rewrite length_app. simpl. lia.
Qed.

(** An update at clock 3000 of a buffer of two points keeps both. *)
Lemma updateChartData_keeps_every_point_witness :
  let st := {| dataRef := [mkPoint 1000 1.5; mkPoint 2000 (-0.5)];
               echartsInstanceRef := Some [];
               zoomStateRef := mkZoom 99.99 100;
               intervalActive := true |} in
  In (mkPoint 1000 1.5) (dataRef (updateChartData 3000 0.5 st)) /\
  List.length (dataRef (updateChartData 3000 0.5 st)) = 3%nat.
Proof.
  cbv zeta.
  pose proof (updateChartData_keeps_every_point 3000 0.5%float
                {| dataRef := [mkPoint 1000 1.5; mkPoint 2000 (-0.5)];
                   echartsInstanceRef := Some [];
                   zoomStateRef := mkZoom 99.99 100;
                   intervalActive := true |}) as (_ & Hin & Hlen).
  cbv zeta in Hin, Hlen.
  split; [apply Hin; left; reflexivity | exact Hlen].
Defined.

(** After the cleanup of unmount the interval no longer runs: a late tick
    changes nothing. *)
Lemma tick_after_unmount now rnd (st : ChartState) :
  chartStep (chartStep st Unmount) (Tick now rnd) = chartStep st Unmount.
Proof. reflexivity. Qed.

End PointBuffer.

(** ** The live feed *)

Module LiveFeed.

Import SignalRService Notions.

#[local] Open Scope nat_scope.

Lemma Set_add_NoDup x l : NoDup l -> NoDup (Set_add x l).
Proof.
  intros Hnd. unfold Set_add.
  destruct (existsb (Nat.eqb x) l) eqn:Hex; [exact Hnd|].
  apply NoDup_app; [exact Hnd | repeat constructor; intros [] |].
  intros y Hy [Heq|[]]. subst y.
  assert (existsb (Nat.eqb x) l = true); [|congruence].
  apply existsb_exists. exists x. split; [exact Hy | apply Nat.eqb_refl].
Qed.

Lemma Set_delete_NoDup x l : NoDup l -> NoDup (Set_delete x l).
Proof. apply NoDup_filter. Qed.

Lemma Set_delete_not_In x l : ~ In x (Set_delete x l).
Proof.
  unfold Set_delete. intros Hin. apply filter_In in Hin as [_ Hne].
  now rewrite Nat.eqb_refl in Hne.
Qed.

Lemma Set_delete_twice x l : Set_delete x (Set_delete x l) = Set_delete x l.
Proof.
  unfold Set_delete.
  induction l as [|y l IH]; simpl; [reflexivity|].
  destruct (Nat.eqb x y) eqn:Hxy; simpl; [exact IH|].
  rewrite Hxy. simpl. now f_equal.
Qed.

Lemma Set_delete_subset x y l : In y (Set_delete x l) -> In y l.
Proof. unfold Set_delete. intros Hin. now apply filter_In in Hin. Qed.

Lemma serviceStep_wellFormed s ev :
  keepsConnection ev = true -> wellFormed s -> wellFormed (serviceStep s ev).
Proof.
  intros Hev [Hnd Hh]. destruct s as [[st h] ls]. simpl in *.
  destruct ev as [|ok|callback|callback| | |]; try discriminate Hev;
    unfold wellFormed; simpl.
  - unfold startConnection, HubConnection_start. simpl.
    destruct st; simpl; auto.
  - destruct st; simpl; auto. destruct ok; simpl; split; auto.
  - split; [now apply Set_add_NoDup | exact Hh].
  - split; [now apply Set_delete_NoDup | exact Hh].
  - destruct st; simpl; auto.
  - destruct st; simpl; auto.
Qed.

Lemma serviceRun_wellFormed evs : forall s,
  forallb keepsConnection evs = true -> wellFormed s ->
  wellFormed (serviceRun s evs).
Proof.
  unfold serviceRun.
  induction evs as [|ev evs IH]; intros s Hevs Hwf; simpl.
  - exact Hwf.
  - simpl in Hevs. apply andb_true_iff in Hevs as [Hev Hevs].
    apply IH; [exact Hevs | now apply serviceStep_wellFormed].
Qed.

Lemma initialService_wellFormed : wellFormed initialService.
Proof. split; [constructor | reflexivity]. Qed.

Lemma count_occ_NoDup_In (l : list nat) (x : nat) :
  NoDup l -> In x l -> count_occ Nat.eq_dec l x = 1%nat.
Proof.
  intros Hnd Hin.
  apply (proj1 (NoDup_count_occ' Nat.eq_dec l) Hnd x Hin).
Qed.

(** *** Walks of the listeners *)

(** When no callback calls back into the service, a walk with enough fuel
    calls the listeners in order up to the first that throws, and leaves the
    set as it was. *)
Lemma forEach_quiet {W} (react : Callbacks W) data :
  neverReenters react ->
  forall rest fuel w visited made,
  List.length rest < fuel ->
  forEach fuel react w visited rest data made =
  Some (fst (delivered react w rest data),
        visited ++ rest,
        made ++ map (fun l => (l, data)) (snd (delivered react w rest data))).
Proof.
  intros Hre.
  induction rest as [|l rest IH]; intros fuel w visited made Hfuel;
    (destruct fuel as [|fuel]; [simpl in Hfuel; lia|]).
  - simpl. now rewrite !app_nil_r.
  - cbn [forEach delivered].
    pose proof (Hre w l data) as Hnone.
    destruct (react w l data) as [w' r]. cbn [fst snd] in *.
    rewrite Hnone. cbn [fold_left fst snd].
    destruct (throws r).
    + cbn [fst snd map]. now rewrite <- !app_assoc.
    + rewrite IH by (simpl in Hfuel; lia).
      cbn [fst snd map]. now rewrite <- !app_assoc.
Qed.

Lemma delivered_all {W} (react : Callbacks W) data :
  neverThrows react ->
  forall set w, snd (delivered react w set data) = set.
Proof.
  intros Hnt. induction set as [|l set IH]; intros w; cbn [delivered].
  - reflexivity.
  - rewrite (Hnt w l data). cbn [snd]. now rewrite IH.
Qed.

(** With callbacks that neither throw nor call back, every handler calls
    every listener, in order, and the set stays as it was. *)
Lemma runHandlers_all {W} (react : Callbacks W) data set fuel :
  neverThrows react -> neverReenters react ->
  List.length set < fuel ->
  forall registered w made,
  exists w',
    runHandlers registered fuel react w set data made =
    Some (w', set,
          made ++ List.concat (repeat (map (fun l => (l, data)) set)
                                 registered)).
Proof.
  intros Hnt Hre Hfuel.
  induction registered as [|n IH]; intros w made; cbn [runHandlers].
  - exists w. cbn [repeat List.concat]. now rewrite app_nil_r.
  - rewrite (forEach_quiet react data Hre set fuel w [] made Hfuel).
    rewrite (delivered_all react data Hnt). cbn [app].
    destruct (IH (fst (delivered react w set data))
                 (made ++ map (fun l => (l, data)) set)) as [w' Hrun].
    exists w'. rewrite Hrun. cbn [repeat List.concat].
    now rewrite <- app_assoc.
Qed.

(** A callback that is not in the set and that no callback registers is
    neither called nor in the set after a walk. *)
Lemma reenter_absent (callback : Listener) (made : list ListenerCall) :
  ~ In (Register callback) made ->
  forall parts,
  ~ In callback (fst parts ++ snd parts) ->
  ~ In callback (fst (fold_left reenter made parts) ++
                 snd (fold_left reenter made parts)).
Proof.
  induction made as [|c made IH]; intros Hnot parts Habs; [exact Habs|].
  cbn [fold_left]. apply IH.
  - intros Hin. apply Hnot. now right.
  - destruct c as [x|x]; cbn [reenter].
    + destruct (existsb (Nat.eqb x) (fst parts ++ snd parts));
        [exact Habs|]. cbn [fst snd]. rewrite app_assoc.
      intros Hin. apply in_app_or in Hin as [Hin|[Heq|[]]];
        [now apply Habs|]. subst x. apply Hnot. now left.
    + cbn [fst snd]. intros Hin. apply Habs.
      apply in_app_or in Hin as [Hin|Hin]; apply in_or_app;
        [left|right]; exact (Set_delete_subset _ _ _ Hin).
Qed.

Lemma forEach_absent {W} (react : Callbacks W) (callback : Listener) data :
  neverRegisters react callback ->
  forall fuel w visited rest made w' set' made',
  ~ In callback (visited ++ rest) ->
  ~ In callback (map fst made) ->
  forEach fuel react w visited rest data made = Some (w', set', made') ->
  ~ In callback set' /\ ~ In callback (map fst made').
Proof.
  intros Hnr.
  induction fuel as [|fuel IH];
    intros w visited rest made w' set' made' Habs Hmade Hrun;
    [discriminate Hrun|].
  cbn [forEach] in Hrun. destruct rest as [|l rest].
  - injection Hrun as <- <- <-. rewrite app_nil_r in Habs. now split.
  - pose proof (Hnr w l data) as Hnone.
    destruct (react w l data) as [w1 r]. cbn [snd] in Hnone.
    assert (Hl : l <> callback).
    { intros ->. apply Habs. apply in_or_app. right. now left. }
    assert (Hparts : ~ In callback
              (fst (fold_left reenter (reentrant r) (visited ++ [l], rest)) ++
               snd (fold_left reenter (reentrant r) (visited ++ [l], rest)))).
    { apply reenter_absent; [exact Hnone|]. cbn [fst snd].
      rewrite <- app_assoc. exact Habs. }
    assert (Hmade1 : ~ In callback (map fst (made ++ [(l, data)]))).
    { rewrite map_app. intros Hin.
      apply in_app_or in Hin as [Hin|[Heq|[]]]; [now apply Hmade|].
      now apply Hl. }
    destruct (throws r).
    + injection Hrun as <- <- <-. now split.
    + exact (IH _ _ _ _ _ _ _ Hparts Hmade1 Hrun).
Qed.

Lemma runHandlers_absent {W} (react : Callbacks W) (callback : Listener)
    data fuel :
  neverRegisters react callback ->
  forall registered w set made w' set' made',
  ~ In callback set ->
  ~ In callback (map fst made) ->
  runHandlers registered fuel react w set data made = Some (w', set', made') ->
  ~ In callback (map fst made').
Proof.
  intros Hnr.
  induction registered as [|n IH];
    intros w set made w' set' made' Habs Hmade Hrun;
    cbn [runHandlers] in Hrun.
  - now injection Hrun as <- <- <-.
  - destruct (forEach fuel react w [] set data made)
      as [[[w1 set1] made1]|] eqn:Hwalk; [|discriminate Hrun].
    destruct (forEach_absent react callback data Hnr
                fuel w [] set made w1 set1 made1 Habs Hmade Hwalk)
      as [Habs1 Hmade1].
    exact (IH _ _ _ _ _ _ Habs1 Hmade1 Hrun).
Qed.

(** *** Client calls on a connected service *)

(** No call a client can make takes a connected service out of
    [Connected], nor does it touch the handlers of the connection. *)
Lemma call_keeps_connection s ev :
  state (connection s) = Connected -> isCall ev = true ->
  connection (serviceStep s ev) = connection s.
Proof.
  intros Hc Hev. destruct ev; try discriminate Hev; simpl; try reflexivity.
  unfold startConnection. now rewrite Hc.
Qed.

Lemma calls_keep_connection evs : forall s,
  state (connection s) = Connected -> forallb isCall evs = true ->
  connection (serviceRun s evs) = connection s.
Proof.
  unfold serviceRun.
  induction evs as [|ev evs IH]; intros s Hc Hevs; simpl; [reflexivity|].
  simpl in Hevs. apply andb_true_iff in Hevs as [Hev Hevs].
  pose proof (call_keeps_connection s ev Hc Hev) as Hsame.
  rewrite IH; [exact Hsame | now rewrite Hsame | exact Hevs].
Qed.

(** C8, as stated, fails in two ways. The handler is registered inside
    [startConnection], after every successful start: once the connection has
    been closed and started again, the service is [Connected], start is the
    no-op of the claim, and a point reaches the listener twice. And nothing
    catches what a listener throws: when the first of two listeners throws,
    the point never reaches the second. *)
Lemma exactly_once_counterexample :
  let restarted :=
    serviceRun initialService
      [CallOn 7; CallStart; StartSettled true; ConnectionClosed;
       CallStart; StartSettled true] in
  let started :=
    serviceRun initialService
      [CallOn 7; CallOn 9; CallStart; StartSettled true] in
  let sevenThrows : Callbacks unit :=
    fun w l _ => (w, {| reentrant := []; throws := Nat.eqb l 7 |}) in
  let data := mkData 1000 21.5 in
  (state (connection restarted) = Connected /\
   startConnection restarted = (restarted, Returned) /\
   receive quiet tt restarted data 2 =
     Some (tt, restarted,
           {| handlerRuns := 2; calls := [(7, data); (7, data)] |})) /\
  (state (connection started) = Connected /\
   receive sevenThrows tt started data 3 =
     Some (tt, started, {| handlerRuns := 1; calls := [(7, data)] |})).
Proof. cbv zeta. repeat split. Qed.

(** C8, amended. Calling [startConnection] while the connection is
    [Connected] is a no-op: it returns at once and leaves the service (the
    state of its connection, the registered handlers, the listeners) as it
    was, so a message is dispatched after the call as before it. And in
    every state reached from the constructed service while the connection is
    never closed (it may be lost and reconnect by itself), if no listener
    throws or calls back into the service, each received point is handed to
    each listener exactly once, also after such a call, and the service is
    left as it was. *)
Theorem startConnection_idempotent (s : Service) :
  state (connection s) = Connected ->
  startConnection s = (s, Returned) /\
  (forall W (react : Callbacks W) w data fuel,
     receive react w (fst (startConnection s)) data fuel =
     receive react w s data fuel) /\
  (forall evs,
     s = serviceRun initialService evs ->
     forallb keepsConnection evs = true ->
     forall W (react : Callbacks W) w data,
       neverThrows react -> neverReenters react ->
       exists w' dispatched,
         receive react w (fst (startConnection s)) data
                 (S (List.length (listeners s))) =
           Some (w', s, dispatched) /\
         (forall callback,
            In callback (listeners s) ->
            count_occ Nat.eq_dec (map fst (calls dispatched)) callback = 1) /\
         Forall (fun c => snd c = data) (calls dispatched)).
Proof.
  intros Hc.
  assert (Hnoop : startConnection s = (s, Returned)).
  { unfold startConnection. now rewrite Hc. }
  split; [exact Hnoop|]. rewrite Hnoop. cbn [fst].
  split; [reflexivity|].
  intros evs Hs Hevs W react w data Hnt Hre.
  destruct (serviceRun_wellFormed evs initialService Hevs
              initialService_wellFormed) as [Hnd Hh].
  rewrite <- Hs in Hnd, Hh. rewrite Hc in Hh. clear Hs Hnoop.
  destruct s as [[st h] ls]. cbn [connection listeners state handlers] in *.
  subst st h.
  destruct (runHandlers_all react data ls (S (List.length ls)) Hnt Hre
              (Nat.lt_succ_diag_r _) 1 w []) as [w' Hrun].
  cbn [repeat List.concat app] in Hrun. rewrite app_nil_r in Hrun.
  exists w', {| handlerRuns := 1; calls := map (fun l => (l, data)) ls |}.
  split; [|split].
  - unfold receive. cbn [connection listeners handlers]. now rewrite Hrun.
  - intros callback Hin. cbn [calls].
    rewrite map_map. cbn [fst]. rewrite map_id.
    now apply count_occ_NoDup_In.
  - cbn [calls]. apply Forall_forall. intros c Hin.
    apply in_map_iff in Hin as (l & <- & _). reflexivity.
Qed.

(** A listener registers, the connection starts, is lost and reconnects by
    itself, a second listener registers, and start is called again: the
    second listener gets the point once. *)
Lemma startConnection_idempotent_witness :
  let s := serviceRun initialService
             [CallOn 7; CallStart; StartSettled true; ConnectionLost;
              Reconnected; CallOn 9] in
  let data := mkData 1000 21.5 in
  state (connection s) = Connected /\
  startConnection s = (s, Returned) /\
  exists w' dispatched,
    receive quiet tt (fst (startConnection s)) data 3 =
      Some (w', s, dispatched) /\
    count_occ Nat.eq_dec (map fst (calls dispatched)) 9 = 1.
Proof.
  cbv zeta.
  set (evs := [CallOn 7; CallStart; StartSettled true; ConnectionLost;
               Reconnected; CallOn 9]).
  assert (Hc : state (connection (serviceRun initialService evs)) = Connected)
    by reflexivity.
  destruct (startConnection_idempotent _ Hc) as (Hnoop & _ & Honce).
  split; [exact Hc|]. split; [exact Hnoop|].
  destruct (Honce evs eq_refl eq_refl unit quiet tt (mkData 1000 21.5))
    as (w' & dispatched & Hrun & Hcount & _).
  - intros w l d. reflexivity.
  - intros w l d. reflexivity.
  - exists w', dispatched. split; [exact Hrun|].
    apply Hcount. simpl. right. left. reflexivity.
Defined.

(** C9, as stated, fails: the class offers no stop. In the connected service
    with one listener, no call a client can make releases the connection or
    its handler; and after the listener is removed (twice), a message still
    runs the hub handler. *)
Lemma stop_counterexample :
  let s := serviceRun initialService [CallOn 7; CallStart; StartSettled true] in
  state (connection s) = Connected /\
  ~ (exists ev, isCall ev = true /\
                (state (connection (serviceStep s ev)) <> Connected \/
                 handlers (connection (serviceStep s ev)) = 0%nat)) /\
  option_map (fun r => handlerRuns (snd r))
    (receive quiet tt (serviceRun s [CallRemove 7; CallRemove 7])
       (mkData 1000 21.5) 1) = Some 1%nat.
Proof.
  cbv zeta.
  set (s := serviceRun initialService [CallOn 7; CallStart; StartSettled true]).
  assert (Hc : state (connection s) = Connected) by reflexivity.
  split; [exact Hc|]. split; [|reflexivity].
  intros (ev & Hev & Hrel).
  rewrite (call_keeps_connection s ev Hc Hev) in Hrel.
  destruct Hrel as [Hrel|Hrel]; [now apply Hrel | discriminate Hrel].
Qed.

(** C9, amended. The service provides no stop: whatever calls a client
    makes on a connected service, the connection stays [Connected] with the
    same handlers, so the hub handler keeps running on every message,
    whatever the listeners do. What it provides is [removeListener]: it is
    safe to call repeatedly (the second call changes nothing) and the
    removed callback is not called any more, as long as no listener
    registers it again. The live updates of the component itself come from
    its interval, which the cleanup of unmount clears: a tick after it
    changes nothing. *)
Theorem service_has_no_stop (s : Service) (evs : list ServiceEvent) :
  state (connection s) = Connected ->
  forallb isCall evs = true ->
  (connection (serviceRun s evs) = connection s /\
   forall W (react : Callbacks W) w data fuel w' s' dispatched,
     receive react w (serviceRun s evs) data fuel =
       Some (w', s', dispatched) ->
     handlerRuns dispatched = handlers (connection s)) /\
  (forall callback,
     removeListener callback (removeListener callback s) =
     removeListener callback s) /\
  (forall W (react : Callbacks W) callback,
     neverRegisters react callback ->
     forall w data fuel w' s' dispatched,
       receive react w (removeListener callback s) data fuel =
         Some (w', s', dispatched) ->
       ~ In callback (map fst (calls dispatched))) /\
  (forall st now rnd,
     TemperatureChart.chartStep
       (TemperatureChart.chartStep st TemperatureChart.Unmount)
       (TemperatureChart.Tick now rnd) =
     TemperatureChart.chartStep st TemperatureChart.Unmount).
Proof.
  intros Hc Hevs.
  pose proof (calls_keep_connection evs s Hc Hevs) as Hsame.
  split; [|split; [|split]].
  - split; [exact Hsame|].
    intros W react w data fuel w' s' dispatched Hrun.
    unfold receive in Hrun. rewrite Hsame in Hrun.
    destruct (runHandlers _ _ _ _ _ _ _) as [[[w1 set1] made1]|];
      [|discriminate Hrun].
    now injection Hrun as <- <- <-.
  - intros callback. unfold removeListener. simpl.
    now rewrite Set_delete_twice.
  - intros W react callback Hnr w data fuel w' s' dispatched Hrun.
    unfold receive in Hrun. cbn [removeListener connection listeners] in Hrun.
    destruct (runHandlers _ _ _ _ _ _ _) as [[[w1 set1] made1]|] eqn:Hwalk;
      [|discriminate Hrun].
    injection Hrun as <- <- <-. cbn [calls].
    apply (runHandlers_absent react callback data fuel Hnr _ _ _ _ _ _ _
             (Set_delete_not_In callback (listeners s))
             (fun H : In callback (map fst []) => H) Hwalk).
  - intros st now rnd. apply PointBuffer.tick_after_unmount.
Qed.

(** A connected service with two listeners: one is removed twice, and the
    other is added again. *)
Lemma service_has_no_stop_witness :
  let s := serviceRun initialService
             [CallOn 7; CallOn 9; CallStart; StartSettled true] in
  let evs := [CallRemove 7; CallRemove 7; CallOn 9; CallStart] in
  state (connection s) = Connected /\
  forallb isCall evs = true /\
  connection (serviceRun s evs) = connection s /\
  removeListener 7 (removeListener 7 s) = removeListener 7 s.
Proof.
  cbv zeta.
  set (s := serviceRun initialService
              [CallOn 7; CallOn 9; CallStart; StartSettled true]).
  assert (Hc : state (connection s) = Connected) by reflexivity.
  destruct (service_has_no_stop s
              [CallRemove 7; CallRemove 7; CallOn 9; CallStart]%nat
              Hc eq_refl) as ((Hsame & _) & Htwice & _).
  split; [exact Hc|]. split; [reflexivity|].
  split; [exact Hsame | apply Htwice].
Defined.

End LiveFeed.

(** ** The historical provider *)

Module HistoricalProvider.

Import SignalRService ApiService Notions.

#[local] Open Scope nat_scope.

(** C7, as stated, fails: the request of the provider, here for the default
    backend, is the bare endpoint: it carries no query (no range, no
    granularity) and no abort signal. *)
Lemma provider_signature_counterexample :
  let request := historicalRequest (constructor None) in
  url request = "http://localhost:5142/api/temperature/historical"%string /\
  hasQuery (url request) = false /\
  signal request = None.
Proof. repeat split. Qed.

(** C7, amended. The provider operation takes no parameter: it requests
    the fixed endpoint under the base URL, without abort signal, and its
    result is determined by the answer to that one request. It returns the
    series of the response body when the response is ok, and fails with the
    HTTP status when it is not, or with the reason when the fetch is
    rejected. *)
Theorem getHistoricalTemperatureData_contract (api : ApiService.ApiService)
    (network : FetchRequest -> FetchOutcome) :
  (url (historicalRequest api) =
     (baseUrl api ++ "/api/temperature/historical")%string /\
   signal (historicalRequest api) = None) /\
  (forall network',
     network' (historicalRequest api) = network (historicalRequest api) ->
     getHistoricalTemperatureData api network' =
     getHistoricalTemperatureData api network) /\
  (forall status body,
     network (historicalRequest api) =
       FetchResolved (mkResponse true status (Some body)) ->
     getHistoricalTemperatureData api network = inr (data body)) /\
  (forall status body,
     network (historicalRequest api) =
       FetchResolved (mkResponse false status body) ->
     getHistoricalTemperatureData api network = inl (HttpError status)) /\
  (forall reason,
     network (historicalRequest api) = FetchRejected reason ->
     getHistoricalTemperatureData api network = inl (NetworkError reason)).
Proof.
  split; [split; reflexivity|].
  unfold getHistoricalTemperatureData.
  split; [|split; [|split]].
  - intros network' ->. reflexivity.
  - intros status body ->. reflexivity.
  - intros status body ->. reflexivity.
  - intros reason ->. reflexivity.
Qed.

(** The backend answers the one request with a series of two points. *)
Lemma getHistoricalTemperatureData_contract_witness :
  let api := constructor None in
  let series := [mkData 1640995200000 23.5; mkData 1640995260000 24.1] in
  let network := fun _ : FetchRequest =>
    FetchResolved (mkResponse true 200%Z (Some (mkResponseBody series))) in
  getHistoricalTemperatureData api network = inr series.
Proof.
  cbv zeta.
  destruct (getHistoricalTemperatureData_contract (constructor None)
              (fun _ => FetchResolved
                 (mkResponse true 200%Z
                    (Some (mkResponseBody
                       [mkData 1640995200000 23.5;
                        mkData 1640995260000 24.1])))))
    as (_ & _ & Hok & _).
  apply (Hok 200%Z
           (mkResponseBody
              [mkData 1640995200000 23.5; mkData 1640995260000 24.1])).
  reflexivity.
Defined.

End HistoricalProvider.

(** * Further properties of the code *)

(** ** More on the order of binary64 numbers *)

Module FloatFacts.

Lemma SFltb_SFleb (a b : spec_float) : SFltb a b = true -> SFleb a b = true.
Proof.
  unfold SFltb, SFleb. destruct (SFcompare a b) as [[]|]; congruence.
Qed.

Lemma ltb_leb (x y : float) :
  (x <? y)%float = true -> (x <=? y)%float = true.
Proof. rewrite ltb_spec, leb_spec. apply SFltb_SFleb. Qed.

(** Above a number is above all numbers below it. *)
Lemma not_leb_below (r c c' : float) :
  (r <=? c)%float = false -> (c' <=? c)%float = true ->
  (r <=? c')%float = false.
Proof.
  intros Hr Hc. destruct (r <=? c')%float eqn:Hrc; [|reflexivity].
  now rewrite (FloatOrder.leb_trans _ _ _ Hrc Hc) in Hr.
Qed.

Lemma Prim2SF_nan (x : float) : is_nan x = true -> Prim2SF x = S754_nan.
Proof. intros Hnan. unfold Prim2SF. now rewrite Hnan. Qed.

(** NaN is below nothing and above nothing. *)
Lemma ltb_nan (x y : float) :
  is_nan x = true -> (x <? y)%float = false /\ (y <? x)%float = false.
Proof.
  intros Hnan. rewrite !ltb_spec, (Prim2SF_nan x Hnan).
  split; [reflexivity|]. unfold SFltb. now destruct (Prim2SF y).
Qed.

End FloatFacts.

(** ** The spike detector, for every configuration *)

Module SpikeDetectorFacts.

Import TemperatureChart Notions.

Lemma detectSpikes_disabled cfg data :
  enabled cfg = false ->
  detectSpikes cfg data = {| upperSpikes := []; lowerSpikes := [] |}.
Proof. intros He. unfold detectSpikes. now rewrite He. Qed.

(** X9. Detection is incremental: the spikes of a series followed by
    another are the spikes of the first followed by the spikes of the
    second, for each output and every configuration; so the spikes after one
    more point are the spikes before it, followed by that point if it is a
    spike. *)
Theorem detectSpikes_app (cfg : SpikeConfig)
    (data more : list TemperatureDataPoint) :
  upperSpikes (detectSpikes cfg (data ++ more)) =
    upperSpikes (detectSpikes cfg data) ++
    upperSpikes (detectSpikes cfg more) /\
  lowerSpikes (detectSpikes cfg (data ++ more)) =
    lowerSpikes (detectSpikes cfg data) ++
    lowerSpikes (detectSpikes cfg more).
Proof.
  destruct (enabled cfg) eqn:He.
  - rewrite !SpikeDetector.detectSpikes_enabled by exact He. simpl.
    now rewrite !filter_app.
  - rewrite !detectSpikes_disabled by exact He. now split.
Qed.

Lemma exclusive_filters_length {A} (f g : A -> bool) (l : list A) :
  (forall x, f x = true -> g x = false) ->
  (List.length (filter f l) + List.length (filter g l) <= List.length l)%nat.
Proof.
  intros Hex. induction l as [|x l IH]; simpl; [lia|].
  destruct (f x) eqn:Hf.
  - rewrite (Hex x Hf). simpl. lia.
  - destruct (g x); simpl; lia.
Qed.

(** X10. For every configuration, also one whose thresholds are inverted
    or overlap, no point is in both outputs: the upper test has priority, so
    a lower spike is never above the upper threshold; and the two outputs
    together hold at most as many points as the input. *)
Theorem detectSpikes_exclusive (cfg : SpikeConfig)
    (data : list TemperatureDataPoint) :
  let spikes := detectSpikes cfg data in
  (forall p, In p (lowerSpikes spikes) ->
     (upperThreshold cfg <? temperature p)%float = false /\
     ~ In p (upperSpikes spikes)) /\
  (List.length (upperSpikes spikes) + List.length (lowerSpikes spikes)
   <= List.length data)%nat.
Proof.
  cbv zeta. destruct (enabled cfg) eqn:He.
  - rewrite SpikeDetector.detectSpikes_enabled by exact He. simpl. split.
    + intros p Hlo. apply filter_In in Hlo as [_ Hlo]. unfold isLower in Hlo.
      apply andb_true_iff in Hlo as [Hnu _]. apply negb_true_iff in Hnu.
      split; [exact Hnu|].
      intros Hup. apply filter_In in Hup as [_ Hup]. congruence.
    + apply exclusive_filters_length. intros x Hu. unfold isLower.
      now rewrite Hu.
  - rewrite detectSpikes_disabled by exact He. simpl.
    split; [intros p []| lia].
Qed.

(** Thresholds that overlap: 3 is above the upper threshold 0 and below the
    lower threshold 10, and is reported as an upper spike only. *)
Lemma detectSpikes_exclusive_witness :
  let cfg := mkSpikeConfig 0 10 "red" "blue" true in
  let spikes := detectSpikes cfg [mkPoint 1 3; mkPoint 2 (-4)] in
  In (mkPoint 2 (-4)) (lowerSpikes spikes) /\
  ~ In (mkPoint 2 (-4)) (upperSpikes spikes).
Proof.
  cbv zeta.
  destruct (detectSpikes_exclusive (mkSpikeConfig 0 10 "red" "blue" true)
              [mkPoint 1 3; mkPoint 2 (-4)]) as [Hlo _].
  cbv zeta in Hlo.
  assert (Hin : In (mkPoint 2 (-4))
                  (lowerSpikes
                     (detectSpikes (mkSpikeConfig 0 10 "red" "blue" true)
                        [mkPoint 1 3; mkPoint 2 (-4)]))).
  { left. reflexivity. }
  split; [exact Hin | apply (Hlo _ Hin)].
Defined.

(** X11. A reading that is not a number is never reported as a spike,
    whatever the thresholds and wherever it stands in the series. *)
Theorem detectSpikes_nan (cfg : SpikeConfig)
    (data : list TemperatureDataPoint) (p : TemperatureDataPoint) :
  is_nan (temperature p) = true ->
  ~ In p (upperSpikes (detectSpikes cfg data)) /\
  ~ In p (lowerSpikes (detectSpikes cfg data)).
Proof.
  intros Hnan.
  destruct (FloatFacts.ltb_nan (temperature p) (upperThreshold cfg) Hnan)
    as [_ Hup].
  destruct (FloatFacts.ltb_nan (temperature p) (lowerThreshold cfg) Hnan)
    as [Hlo _].
  destruct (enabled cfg) eqn:He.
  - rewrite SpikeDetector.detectSpikes_enabled by exact He. simpl.
    split; intros Hin; apply filter_In in Hin as [_ Hin].
    + unfold isUpper in Hin. congruence.
    + unfold isLower in Hin. apply andb_true_iff in Hin as [_ Hin].
      congruence.
  - rewrite detectSpikes_disabled by exact He. simpl. split; intros [].
Qed.

Lemma detectSpikes_nan_witness :
  let data := [mkPoint 1 7; mkPoint 2 nan; mkPoint 3 (-7)] in
  is_nan (temperature (mkPoint 2 nan)) = true /\
  ~ In (mkPoint 2 nan) (upperSpikes (detectSpikes SPIKE_CONFIG data)) /\
  ~ In (mkPoint 2 nan) (lowerSpikes (detectSpikes SPIKE_CONFIG data)).
Proof.
  cbv zeta. split; [reflexivity|].
  apply (detectSpikes_nan SPIKE_CONFIG
           [mkPoint 1 7; mkPoint 2 nan; mkPoint 3 (-7)] (mkPoint 2 nan)).
  reflexivity.
Defined.

End SpikeDetectorFacts.

(** ** The bands of the zoom classifier *)

Module ZoomBands.

Import TemperatureChart Notions.

(** In a table that ascends, a range above one ceiling and within the next
    gets the label of the next. *)
Lemma getZoomLevel_from_band (r : float) (pre : list (float * string)) :
  forall c1 l1 c2 l2 post,
  StronglySorted (fun a b => (fst a <? fst b)%float = true)
    (pre ++ (c1, l1) :: (c2, l2) :: post) ->
  (r <=? c1)%float = false -> (r <=? c2)%float = true ->
  getZoomLevel_from (pre ++ (c1, l1) :: (c2, l2) :: post) r = l2.
Proof.
  induction pre as [|[c l] pre IH]; intros c1 l1 c2 l2 post Hs H1 H2; simpl.
  - now rewrite H1, H2.
  - inversion Hs as [|? ? Hs' Hall]; subst.
    rewrite Forall_forall in Hall.
    assert (Hc : (c <? c1)%float = true).
    { apply (Hall (c1, l1)). apply in_or_app. right. now left. }
    rewrite (FloatFacts.not_leb_below r c1 c H1 (FloatFacts.ltb_leb _ _ Hc)).
    now apply IH.
Qed.

Lemma getZoomLevel_catch_all (r : float) :
  getZoomLevel r = "1 Week"%string <-> (r <=? 0.95)%float = false.
Proof.
  unfold getZoomLevel, ZOOM_LEVELS. split.
  - intros Hweek. simpl in Hweek.
    repeat match type of Hweek with
           | (if ?b then _ else _) = _ =>
               destruct b eqn:?; [discriminate Hweek|]
           end.
    reflexivity.
  - intros Hr. simpl.
    repeat match goal with
           | |- context [(r <=? ?c)%float] =>
               rewrite (FloatFacts.not_leb_below r 0.95 c Hr eq_refl)
           end.
    reflexivity.
Qed.

(** X2. The labels are bands of the range: a range above the ceiling of an
    entry of the table and within the ceiling of the entry after it gets the
    label of the latter; a range within the first ceiling 0.005 gets
    "1 Second"; and the range gets "1 Week" exactly when it is not within the
    last ceiling 0.95 (a range that is not a number included). *)
Theorem getZoomLevel_bands (r : float) :
  (forall pre c1 l1 c2 l2 post,
     ZOOM_LEVELS = pre ++ (c1, l1) :: (c2, l2) :: post ->
     (r <=? c1)%float = false -> (r <=? c2)%float = true ->
     getZoomLevel r = l2) /\
  ((r <=? 0.005)%float = true -> getZoomLevel r = "1 Second"%string) /\
  (getZoomLevel r = "1 Week"%string <-> (r <=? 0.95)%float = false).
Proof.
  split; [|split].
  - intros pre c1 l1 c2 l2 post Htable H1 H2. unfold getZoomLevel.
    pose proof ZoomClassifier.ZOOM_LEVELS_ascending as Hs.
    rewrite Htable in *.
    now apply getZoomLevel_from_band with (c1 := c1) (l1 := l1).
  - intros H. unfold getZoomLevel, ZOOM_LEVELS. simpl. now rewrite H.
  - apply getZoomLevel_catch_all.
Qed.

(** 0.4 lies above 0.3 and within 0.5: "1 Hour"; 30 is "1 Week". *)
Lemma getZoomLevel_bands_witness :
  getZoomLevel 0.4 = "1 Hour"%string /\ getZoomLevel 30 = "1 Week"%string.
Proof.
  destruct (getZoomLevel_bands 0.4) as [Hband _].
  destruct (getZoomLevel_bands 30) as (_ & _ & Hweek).
  split.
  - apply (Hband [(0.005, "1 Second"); (0.02, "30 Seconds");
                  (0.05, "1 Minute"); (0.1, "5 Minutes");
                  (0.2, "15 Minutes")]%float%string
                 0.3%float "30 Minutes"%string 0.5%float "1 Hour"%string
                 [(0.7, "4 Hours"); (0.85, "12 Hours");
                  (0.95, "1 Day")]%float%string);
      reflexivity.
  - apply Hweek. reflexivity.
Defined.

End ZoomBands.

(** ** The buffer, the chart and the zoom *)

Module ChartFacts.

Import TemperatureChart Notions ChartView.

(** X1. The generated history holds one point per second from three days
    before the clock reading up to the reading itself, both ends included:
    259201 points, the first stamped [now - 259200000], the last [now]. *)
Theorem generateDummyData_shape (raw : Z -> float) (now : Z) :
  let history := generateDummyData raw now in
  timestamps history =
    map (fun k => now - 259200000 + 1000 * Z.of_nat k)
        (seq 0 (Z.to_nat 259201)) /\
  Z.of_nat (List.length history) = 259201 /\
  hd_error (timestamps history) = Some (now - 259200000) /\
  last (timestamps history) 0 = now.
Proof.
  cbv zeta.
  assert (Hts : timestamps (generateDummyData raw now) =
                map (fun k => now - 259200000 + 1000 * Z.of_nat k)
                    (seq 0 (Z.to_nat 259201))).
  { rewrite PointBuffer.generateDummyData_complete. unfold timestamps.
    rewrite map_map. apply map_ext. intros k. reflexivity. }
  split; [exact Hts|]. split; [|rewrite Hts; split].
  - rewrite PointBuffer.generateDummyData_complete.
    rewrite length_map, length_seq, Z2Nat.id; lia.
  - replace 259201 with (Z.succ 259200) by reflexivity.
    rewrite Z2Nat.inj_succ by lia. cbn [seq map hd_error].
    f_equal. lia.
  - replace 259201 with (Z.succ 259200) by reflexivity.
    rewrite Z2Nat.inj_succ by lia.
    rewrite seq_S, map_app. cbn [map]. rewrite last_last.
    rewrite Nat.add_0_l, Z2Nat.id; lia.
Qed.

Lemma Subsequence_map {A B} (f : A -> B) (l1 l2 : list A) :
  Subsequence l1 l2 -> Subsequence (map f l1) (map f l2).
Proof. induction 1; simpl; now constructor. Qed.

(** X6. What a live update hands to a ready chart: one more [setOption],
    whose temperature series is the whole buffer after the update, whose two
    spike series are subsequences of that series (every marker lies on a
    drawn point), with all upper markers above 5 and all lower markers
    below -5, and whose two zoom components both carry the stored zoom
    state. *)
Theorem updateChartData_option now rnd (st : ChartState)
    (instance : ECharts) :
  echartsInstanceRef st = Some instance ->
  exists option,
    echartsInstanceRef (updateChartData now rnd st) =
      Some (instance ++ [option]) /\
    temperatureData option =
      map toPair (dataRef (updateChartData now rnd st)) /\
    Subsequence (upperSpikesData option) (temperatureData option) /\
    Subsequence (lowerSpikesData option) (temperatureData option) /\
    Forall (fun d => (5 <? snd d)%float = true) (upperSpikesData option) /\
    Forall (fun d => (snd d <? -5)%float = true) (lowerSpikesData option) /\
    insideZoom option = zoomStateRef st /\
    sliderZoom option = zoomStateRef st.
Proof.
  intros Hready. unfold updateChartData. rewrite Hready.
  rewrite SpikeDetector.detectSpikes_enabled by reflexivity.
  eexists. split; [reflexivity|]. cbn -[Host.Math_round].
  split; [reflexivity|].
  split; [apply Subsequence_map, SpikeDetector.filter_Subsequence|].
  split; [apply Subsequence_map, SpikeDetector.filter_Subsequence|].
  split; [|split; [|split; reflexivity]].
  - apply Forall_forall. intros d Hd.
    apply in_map_iff in Hd as (p & <- & Hp).
    apply filter_In in Hp as [_ Hp]. exact Hp.
  - apply Forall_forall. intros d Hd.
    apply in_map_iff in Hd as (p & <- & Hp).
    apply filter_In in Hp as [_ Hp]. unfold isLower in Hp.
    apply andb_true_iff in Hp as [_ Hp]. exact Hp.
Qed.

(** An update of a ready chart whose buffer holds a spike. *)
Lemma updateChartData_option_witness :
  let st := {| dataRef := [mkPoint 1000 7.5];
               echartsInstanceRef := Some [];
               zoomStateRef := mkZoom 99.99 100;
               intervalActive := true |} in
  exists option,
    echartsInstanceRef (updateChartData 2000 0.5 st) = Some [option] /\
    Subsequence (upperSpikesData option) (temperatureData option).
Proof.
  cbv zeta.
  destruct (updateChartData_option 2000 0.5%float
              {| dataRef := [mkPoint 1000 7.5];
                 echartsInstanceRef := Some [];
                 zoomStateRef := mkZoom 99.99 100;
                 intervalActive := true |} [] eq_refl)
    as (option & Hlog & _ & Hup & _).
  exists option. split; [exact Hlog | exact Hup].
Defined.

(** No event of the component moves the zoom, and every [setOption] made
    during a run carries the zoom state the run started with. *)
Lemma chartRun_zoom evs : forall st,
  zoomStateRef (chartRun st evs) = zoomStateRef st /\
  exists added,
    optionsReceived (chartRun st evs) = optionsReceived st ++ added /\
    Forall (fun o => insideZoom o = zoomStateRef st /\
                     sliderZoom o = zoomStateRef st) added.
Proof.
  unfold chartRun.
  induction evs as [|ev evs IH]; intros st; simpl.
  - split; [reflexivity|]. exists []. now rewrite app_nil_r.
  - destruct (IH (chartStep st ev)) as (Hz & added & Hlog & Hall).
    assert (Hstep : zoomStateRef (chartStep st ev) = zoomStateRef st /\
              exists one,
                optionsReceived (chartStep st ev) =
                  optionsReceived st ++ one /\
                Forall (fun o => insideZoom o = zoomStateRef st /\
                                 sliderZoom o = zoomStateRef st) one).
    { destruct ev as [raw now| |now rnd| |]; simpl;
        try (split; [reflexivity|]; exists [];
             split; [now rewrite app_nil_r | constructor]).
      - destruct (intervalActive st).
        + unfold updateChartData, optionsReceived.
          destruct (echartsInstanceRef st) as [instance|]; simpl.
          * split; [reflexivity|]. eexists. split; [reflexivity|].
            repeat constructor.
          * split; [reflexivity|]. exists []. now split.
        + split; [reflexivity|]. exists [].
          split; [now rewrite app_nil_r | constructor]. }
    destruct Hstep as (Hz1 & one & Hlog1 & Hall1).
    split; [congruence|].
    exists (one ++ added). rewrite Hlog, Hlog1, app_assoc.
    split; [reflexivity|].
    apply Forall_app. split; [exact Hall1|].
    now rewrite Hz1 in Hall.
Qed.

(** X3. Live updates respect the user's zoom: once a [dataZoom] event has
    set a range, every later run of component events (ticks, chart ready,
    history load, interval start, unmount) leaves the stored zoom state at
    that range, and every [setOption] made during the run carries exactly
    that range in both zoom components. *)
Theorem zoom_survives_updates (params : DataZoomParams) (v : View)
    (zoom : ZoomState) (evs : list ChartEvent) :
  zoomRangeOf params = Some zoom ->
  let st := chartRun (chart (dataZoom params v)) evs in
  zoomStateRef st = zoom /\
  exists added,
    optionsReceived st = optionsReceived (chart v) ++ added /\
    Forall (fun o => insideZoom o = zoom /\ sliderZoom o = zoom) added.
Proof.
  intros Hrange. cbv zeta.
  destruct (chartRun_zoom evs (chart (dataZoom params v)))
    as (Hz & added & Hlog & Hall).
  unfold dataZoom in *. rewrite Hrange in *. simpl in *.
  split; [exact Hz|]. exists added. split; [exact Hlog | exact Hall].
Qed.

(** The user zooms to [40, 60] on a ready chart, then two ticks arrive. *)
Lemma zoom_survives_updates_witness :
  let params := mkParams None (Some 40%float) (Some 60%float) in
  let v := {| chart := {| dataRef := [mkPoint 1000 1.5];
                          echartsInstanceRef := Some [];
                          zoomStateRef := mkZoom 99.99 100;
                          intervalActive := true |};
              currentZoomLevel := "1 Hour";
              isZoomedIn := false |} in
  zoomStateRef (chartRun (chart (dataZoom params v))
                  [Tick 2000 0.25; Tick 3000 0.75]) = mkZoom 40 60.
Proof.
  cbv zeta.
  apply (zoom_survives_updates
           (mkParams None (Some 40%float) (Some 60%float))
           {| chart := {| dataRef := [mkPoint 1000 1.5];
                          echartsInstanceRef := Some [];
                          zoomStateRef := mkZoom 99.99 100;
                          intervalActive := true |};
              currentZoomLevel := "1 Hour";
              isZoomedIn := false |}
           (mkZoom 40 60) [Tick 2000 0.25; Tick 3000 0.75] eq_refl).
Defined.



(** X7. While the interval runs, a series of ticks appends one point per
    tick, stamped with its clock reading, in the order of the ticks, and
    removes nothing; a chart that is ready receives one [setOption] per
    tick, and while there is no chart instance none is made. *)
Theorem ticks_append (readings : list (Z * float)) : forall st,
  intervalActive st = true ->
  let st' := chartRun st (ticks readings) in
  timestamps (dataRef st') = timestamps (dataRef st) ++ map fst readings /\
  intervalActive st' = true /\
  match echartsInstanceRef st with
  | Some _ =>
      List.length (optionsReceived st') =
      (List.length (optionsReceived st) + List.length readings)%nat
  | None => echartsInstanceRef st' = None
  end.
Proof.
  unfold chartRun, ticks.
  induction readings as [|[now rnd] readings IH]; intros st Hact; simpl.
  - rewrite app_nil_r. split; [reflexivity|]. split; [exact Hact|].
    destruct (echartsInstanceRef st); [lia | reflexivity].
  - rewrite Hact.
    destruct (IH (updateChartData now rnd st)) as (Hts & Hact' & Hlog).
    { now rewrite PointBuffer.intervalActive_updateChartData. }
    cbv zeta in Hts, Hact', Hlog.
    split; [|split; [exact Hact'|]].
    + rewrite Hts, PointBuffer.dataRef_updateChartData,
        PointBuffer.timestamps_snoc, <- app_assoc. reflexivity.
    + unfold updateChartData, optionsReceived in *.
      destruct (echartsInstanceRef st) as [instance|]; simpl in *.
      * rewrite Hlog, length_app. simpl. lia.
      * exact Hlog.
Qed.

(** Three ticks on a chart that has no instance yet. *)
Lemma ticks_append_witness :
  let st := chartStep initialChart StartInterval in
  let readings := [(1000, 0.25%float); (2000, 0.5%float); (3000, 0.75%float)] in
  timestamps (dataRef (chartRun st (ticks readings))) = [1000; 2000; 3000] /\
  echartsInstanceRef (chartRun st (ticks readings)) = None.
Proof.
  cbv zeta.
  destruct (ticks_append
              [(1000, 0.25%float); (2000, 0.5%float); (3000, 0.75%float)]
              (chartStep initialChart StartInterval) eq_refl)
    as (Hts & _ & Hlog).
  split; [exact Hts | exact Hlog].
Defined.

Lemma stopped_chart_run evs : forall st,
  intervalActive st = false ->
  forallb keepsStopped evs = true ->
  dataRef (chartRun st evs) = dataRef st /\
  optionsReceived (chartRun st evs) = optionsReceived st /\
  intervalActive (chartRun st evs) = false.
Proof.
  unfold chartRun.
  induction evs as [|ev evs IH]; intros st Hoff Hevs; simpl.
  - now repeat split.
  - simpl in Hevs. apply andb_true_iff in Hevs as [Hev Hevs].
    assert (Hstep : dataRef (chartStep st ev) = dataRef st /\
                    optionsReceived (chartStep st ev) = optionsReceived st /\
                    intervalActive (chartStep st ev) = false).
    { destruct ev; try discriminate Hev; simpl.
      - rewrite Hoff. now repeat split.
      - unfold optionsReceived. simpl.
        now destruct (echartsInstanceRef st).
      - now repeat split. }
    destruct Hstep as (Hd & Ho & Ha).
    destruct (IH (chartStep st ev) Ha Hevs) as (Hd' & Ho' & Ha').
    repeat split; congruence.
Qed.

(** X8. After the cleanup of unmount, as long as the interval is not started
    again, whatever ticks still arrive and whatever else happens (chart
    ready, a second unmount), the buffer is not changed, no [setOption] is
    made, and the interval stays off. *)
Theorem unmount_stops_updates (st : ChartState) (evs : list ChartEvent) :
  forallb keepsStopped evs = true ->
  let st' := chartRun (chartStep st Unmount) evs in
  dataRef st' = dataRef st /\
  optionsReceived st' = optionsReceived st /\
  intervalActive st' = false.
Proof.
  intros Hevs. cbv zeta.
  destruct (stopped_chart_run evs (chartStep st Unmount) eq_refl Hevs)
    as (Hd & Ho & Ha).
  now repeat split.
Qed.

(** Two late ticks after unmount. *)
Lemma unmount_stops_updates_witness :
  let st := chartRun initialChart
              [StartInterval; ChartReady; Tick 1000 0.25] in
  let late := [Tick 2000 0.5; ChartReady; Tick 3000 0.75; Unmount] in
  forallb keepsStopped late = true /\
  dataRef (chartRun (chartStep st Unmount) late) = dataRef st.
Proof.
  cbv zeta. split; [reflexivity|].
  apply (unmount_stops_updates
           (chartRun initialChart [StartInterval; ChartReady; Tick 1000 0.25])
           [Tick 2000 0.5; ChartReady; Tick 3000 0.75; Unmount] eq_refl).
Defined.

End ChartFacts.

(** ** The listeners of the live feed *)

Module ListenerFacts.

Import SignalRService Notions.

#[local] Open Scope nat_scope.

Lemma Set_add_In x l : In x (Set_add x l).
Proof.
  unfold Set_add. destruct (existsb (Nat.eqb x) l) eqn:Hex.
  - apply existsb_exists in Hex as (y & Hy & Heq).
    apply Nat.eqb_eq in Heq. now subst y.
  - apply in_or_app. right. now left.
Qed.

Lemma existsb_eqb_In x l : In x l -> existsb (Nat.eqb x) l = true.
Proof.
  intros Hin. apply existsb_exists. exists x.
  split; [exact Hin | apply Nat.eqb_refl].
Qed.

Lemma Set_delete_absent x l : ~ In x l -> Set_delete x l = l.
Proof.
  unfold Set_delete. induction l as [|y l IH]; intros Hnotin; simpl.
  - reflexivity.
  - destruct (Nat.eqb x y) eqn:Hxy.
    + apply Nat.eqb_eq in Hxy. subst y. exfalso. apply Hnotin. now left.
    + simpl. f_equal. apply IH. intros Hin. apply Hnotin. now right.
Qed.

(** X12. Registering is idempotent: a callback registered twice is held
    once, so the second registration changes nothing; after registering,
    the callback is among the listeners, and the listeners registered before
    keep their places in front of it. *)
Theorem register_twice (callback : Listener) (s : Service) :
  onPlantTemperatureReceived callback
    (onPlantTemperatureReceived callback s) =
  onPlantTemperatureReceived callback s /\
  In callback (listeners (onPlantTemperatureReceived callback s)) /\
  (exists tail,
     listeners (onPlantTemperatureReceived callback s) =
     listeners s ++ tail) /\
  connection (onPlantTemperatureReceived callback s) = connection s.
Proof.
  unfold onPlantTemperatureReceived. simpl.
  split; [|split; [apply Set_add_In | split; [|reflexivity]]].
  - f_equal. unfold Set_add at 1.
    now rewrite (existsb_eqb_In _ _ (Set_add_In callback (listeners s))).
  - unfold Set_add. destruct (existsb (Nat.eqb callback) (listeners s)).
    + exists []. now rewrite app_nil_r.
    + now exists [callback].
Qed.

(** X13. Removing undoes registering: for a callback that is not registered,
    [removeListener] changes nothing, and registering it and then removing
    it gives back the service as it was. *)
Theorem remove_undoes_register (callback : Listener) (s : Service) :
  ~ In callback (listeners s) ->
  removeListener callback s = s /\
  removeListener callback (onPlantTemperatureReceived callback s) = s.
Proof.
  intros Hnotin. destruct s as [c ls]. simpl in Hnotin.
  unfold removeListener, onPlantTemperatureReceived. simpl. split.
  - now rewrite Set_delete_absent.
  - f_equal. unfold Set_add.
    destruct (existsb (Nat.eqb callback) ls) eqn:Hex.
    + now apply Set_delete_absent.
    + unfold Set_delete. rewrite filter_app. simpl.
      rewrite Nat.eqb_refl. simpl. rewrite app_nil_r.
      now apply Set_delete_absent.
Qed.

Lemma remove_undoes_register_witness :
  let s := serviceRun initialService [CallOn 7; CallStart; StartSettled true] in
  ~ In 9 (listeners s) /\
  removeListener 9 (onPlantTemperatureReceived 9 s) = s.
Proof.
  cbv zeta.
  assert (Hnotin : ~ In 9 (listeners
                     (serviceRun initialService
                        [CallOn 7; CallStart; StartSettled true]))).
  { simpl. intros [H|[]]. discriminate H. }
  split; [exact Hnotin|].
  apply (remove_undoes_register 9 _ Hnotin).
Defined.

Lemma calls_filter (keep : Listener -> bool) (data : PlantTemperatureData)
    (ls : list Listener) (n : nat) :
  List.concat (repeat (map (fun l => (l, data)) (filter keep ls)) n) =
  filter (fun c => keep (fst c))
    (List.concat (repeat (map (fun l => (l, data)) ls) n)).
Proof.
  assert (Hone : map (fun l => (l, data)) (filter keep ls) =
                 filter (fun c : Listener * PlantTemperatureData =>
                           keep (fst c))
                   (map (fun l => (l, data)) ls)).
  { induction ls as [|l ls IH]; simpl; [reflexivity|].
    destruct (keep l); simpl; now rewrite IH. }
  induction n as [|n IH]; simpl; [reflexivity|].
  now rewrite filter_app, IH, Hone.
Qed.

(** With callbacks that neither throw nor call back, a message with
    enough fuel for the listeners is dispatched to all of them by every
    handler, and leaves the service as it was. *)
Lemma receive_all {W} (react : Callbacks W) (w : W) (s : Service)
    (data : PlantTemperatureData) (fuel : nat) :
  neverThrows react -> neverReenters react ->
  List.length (listeners s) < fuel ->
  exists w',
    receive react w s data fuel =
    Some (w', s,
          {| handlerRuns := handlers (connection s);
             calls :=
               List.concat
                 (repeat (map (fun l => (l, data)) (listeners s))
                         (handlers (connection s))) |}).
Proof.
  intros Hnt Hre Hfuel.
  destruct (LiveFeed.runHandlers_all react data (listeners s) fuel
              Hnt Hre Hfuel (handlers (connection s)) w []) as [w' Hrun].
  exists w'. unfold receive. rewrite Hrun. cbn [app].
  now destruct s.
Qed.

Lemma filter_length_le {A} (f : A -> bool) (l : list A) :
  List.length (filter f l) <= List.length l.
Proof.
  induction l as [|x l IH]; simpl; [lia|]. destruct (f x); simpl; lia.
Qed.

(** X14. Removing a listener does not disturb the others, as long as no
    listener throws or calls back into the service: for every message, the
    calls made after the removal are the calls that would have been made
    without it, less those to the removed callback, in the same order; and
    the hub handlers run as often as before. *)
Theorem remove_keeps_others {W : Type} (react : Callbacks W)
    (callback : Listener) (s : Service) (w : W)
    (data : PlantTemperatureData) :
  neverThrows react -> neverReenters react ->
  exists w1 w2 before after,
    receive react w s data (S (List.length (listeners s))) =
      Some (w1, s, before) /\
    receive react w (removeListener callback s) data
            (S (List.length (listeners s))) =
      Some (w2, removeListener callback s, after) /\
    calls after =
      filter (fun c => negb (Nat.eqb callback (fst c))) (calls before) /\
    handlerRuns after = handlerRuns before.
Proof.
  intros Hnt Hre.
  destruct (receive_all react w s data (S (List.length (listeners s)))
              Hnt Hre (Nat.lt_succ_diag_r _)) as [w1 H1].
  destruct (receive_all react w (removeListener callback s) data
              (S (List.length (listeners s))) Hnt Hre) as [w2 H2].
  { cbn [removeListener listeners]. unfold Set_delete.
    pose proof (filter_length_le
                  (fun y => negb (Nat.eqb callback y)) (listeners s)).
    unfold Listener in *. lia. }
  exists w1, w2. eexists. eexists.
  split; [exact H1|]. split; [exact H2|]. cbn [calls handlerRuns].
  split; [|reflexivity].
  cbn [removeListener listeners connection]. unfold Set_delete.
  apply (calls_filter (fun y => negb (Nat.eqb callback y))).
Qed.

(** Two quiet listeners on a connected service; the first is removed. *)
Lemma remove_keeps_others_witness :
  let s := serviceRun initialService
             [CallOn 7; CallOn 9; CallStart; StartSettled true] in
  let data := mkData 1000 21.5 in
  exists w1 w2 before after,
    receive quiet tt s data 3 = Some (w1, s, before) /\
    receive quiet tt (removeListener 7 s) data 3 =
      Some (w2, removeListener 7 s, after) /\
    calls after =
      filter (fun c => negb (Nat.eqb 7 (fst c))) (calls before) /\
    handlerRuns after = handlerRuns before.
Proof.
  cbv zeta.
  apply (remove_keeps_others quiet 7
           (serviceRun initialService
              [CallOn 7; CallOn 9; CallStart; StartSettled true])
           tt (mkData 1000 21.5)).
  - intros w l d. reflexivity.
  - intros w l d. reflexivity.
Defined.






Lemma delivered_prefix {W} (react : Callbacks W) data :
  forall before thrower after w,
  (forall w l, In l before -> throws (snd (react w l data)) = false) ->
  (forall w, throws (snd (react w thrower data)) = true) ->
  snd (delivered react w (before ++ thrower :: after) data) =
  before ++ [thrower].
Proof.
  induction before as [|l before IH]; intros thrower after w Hok Hthrow;
    cbn [app delivered].
  - now rewrite Hthrow.
  - rewrite (Hok w l (or_introl eq_refl)). cbn [snd]. f_equal.
    apply IH; [|exact Hthrow].
    intros w0 l0 Hin. apply Hok. now right.
Qed.

(** X17. Nothing catches what a listener throws. When no listener calls
    back into the service and the hub handler is registered once, a message
    is handed to the listeners in the order they were registered, up to and
    including the first one that throws; the listeners registered after it
    do not get the point, and the service is left as it was. *)
Theorem throwing_listener_stops_delivery {W : Type} (react : Callbacks W)
    (s : Service) (w : W) (data : PlantTemperatureData)
    (before after : list Listener) (thrower : Listener) :
  neverReenters react ->
  handlers (connection s) = 1 ->
  listeners s = before ++ thrower :: after ->
  (forall w l, In l before -> throws (snd (react w l data)) = false) ->
  (forall w, throws (snd (react w thrower data)) = true) ->
  exists w',
    receive react w s data (S (List.length (listeners s))) =
    Some (w', s,
          {| handlerRuns := 1;
             calls := map (fun l => (l, data)) (before ++ [thrower]) |}).
Proof.
  intros Hre Hone Hset Hok Hthrow.
  exists (fst (delivered react w (listeners s) data)).
  unfold receive. rewrite Hone. cbn [runHandlers].
  rewrite (LiveFeed.forEach_quiet react data Hre (listeners s)
             (S (List.length (listeners s))) w [] []
             (Nat.lt_succ_diag_r _)).
  cbn [app]. f_equal. f_equal.
  - f_equal. now destruct s.
  - f_equal. rewrite Hset.
    now rewrite (delivered_prefix react data before thrower after w Hok
                   Hthrow).
Qed.

(** Three listeners; the second throws. *)
Lemma throwing_listener_stops_delivery_witness :
  let s := serviceRun initialService
             [CallOn 7; CallOn 8; CallOn 9; CallStart; StartSettled true] in
  let eightThrows : Callbacks unit :=
    fun w l _ => (w, {| reentrant := []; throws := Nat.eqb l 8 |}) in
  let data := mkData 1000 21.5 in
  exists w',
    receive eightThrows tt s data 4 =
    Some (w', s, {| handlerRuns := 1; calls := [(7, data); (8, data)] |}).
Proof.
  cbv zeta.
  apply (throwing_listener_stops_delivery
           (fun w l _ => (w, {| reentrant := []; throws := Nat.eqb l 8 |}))
           (serviceRun initialService
              [CallOn 7; CallOn 8; CallOn 9; CallStart; StartSettled true])
           tt (mkData 1000 21.5) [7] [9] 8).
  - intros w l d. reflexivity.
  - reflexivity.
  - reflexivity.
  - intros w l [<-|[]]. reflexivity.
  - intros w. reflexivity.
Defined.

End ListenerFacts.

(** ** The results of the historical provider *)

Module ProviderFacts.

Import SignalRService ApiService.

(** X15. The provider returns a series only from a response that is ok and
    whose body parsed: whenever it returns a series, the network answered
    its one request with such a response, and the series is the [data] of
    that body. A rejected fetch, a response that is not ok and a body that
    does not parse never yield a series. *)
Theorem series_only_from_ok_response (api : ApiService.ApiService)
    (network : FetchRequest -> FetchOutcome)
    (series : list PlantTemperatureData) :
  getHistoricalTemperatureData api network = inr series ->
  exists status body,
    network (historicalRequest api) =
      FetchResolved (mkResponse true status (Some body)) /\
    data body = series.
Proof.
  unfold getHistoricalTemperatureData.
  destruct (network (historicalRequest api)) as [reason|[isOk st body]];
    [discriminate|]. simpl.
  destruct isOk; simpl; [|discriminate].
  destruct body as [body|]; [|discriminate].
  intros [= <-]. now exists st, body.
Qed.

Lemma series_only_from_ok_response_witness :
  let api := constructor None in
  let series := [mkData 1640995200000 23.5] in
  let network := fun _ : FetchRequest =>
    FetchResolved (mkResponse true 200 (Some (mkResponseBody series))) in
  exists status body,
    network (historicalRequest api) =
      FetchResolved (mkResponse true status (Some body)) /\
    data body = series.
Proof.
  cbv zeta.
  apply (series_only_from_ok_response (constructor None)
           (fun _ => FetchResolved
              (mkResponse true 200
                 (Some (mkResponseBody [mkData 1640995200000 23.5]))))
           [mkData 1640995200000 23.5]).
  reflexivity.
Defined.

End ProviderFacts.

(** ** The theme *)

Module ThemeFacts.

Import ChartView.

Lemma afterClicks_even (n : nat) : App.afterClicks n = Nat.even n.
Proof.
  unfold App.afterClicks.
  induction n as [|n IH]; [reflexivity|].
  rewrite Nat.iter_succ, IH. unfold App.onClick.
  now rewrite Nat.even_succ, <- Nat.negb_even.
Qed.

(** X16. The theme of the chart follows the button: after an even number of
    clicks, and at the start, the page has the class "App dark" and the
    chart is drawn with the text colour #ffffff; after an odd number the
    class is "App light" and the text colour #333333. *)
Theorem theme_follows_clicks (n : nat) :
  let isDarkMode := App.afterClicks n in
  App.className isDarkMode =
    (if Nat.even n then "App dark" else "App light")%string /\
  textColor (getThemeColors (App.chartIsDarkMode isDarkMode)) =
    (if Nat.even n then "#ffffff" else "#333333")%string.
Proof.
  cbv zeta. rewrite afterClicks_even.
  now destruct (Nat.even n).
Qed.

End ThemeFacts.
